(** * Ocean-data pipeline: acquisition, normalisation and orchestration

    A shallow embedding of [pipeline/fetch_noaa.py] and
    [pipeline/run_pipeline.py].  Python values are modelled as follows.

    - A calendar date is its proleptic Gregorian ordinal (Python's
      [date.toordinal()]); [strftime] and [.year] go through the usual
      days-to-civil conversion.
    - A pandas [DataFrame] is stored by column: the row labels ([index]) and
      an association list from column name to the column's cells (column
      names are looked up first match first; flattened datasets have distinct
      variable names).  Row labels need not be distinct, and label-based
      access ([.loc]) is kept apart from positional access.  Floats are IEEE
      binary64 ([PrimFloat]); pandas' "null" is [None] or NaN.
    - The outside world (environment variables, clock, remote servers, local
      files, the input/output events so far, standard output) is one record
      threaded through a state-and-exception monad.  A file's content is
      identified with what [xarray.open_dataset(..).to_dataframe()
      .reset_index()] makes of it.
    - Exceptions are those derived from Python's [Exception]; asynchronous
      interrupts are outside the model, and a write to the local working
      directory is taken to succeed.  The clock does not move during a run. *)

From Stdlib Require Import Floats ZArith Lia Ascii String.
From stdpp Require Import gmap strings list.

Local Open Scope string_scope.
Local Open Scope list_scope.
Local Open Scope Z_scope.

(* Decimal literals denote the nearest binary64 value, as in Python. *)
#[local] Set Warnings "-inexact-float".

(** ** Calendar dates *)

Module Calendar.

Definition date := Z.

(** Ordinal of 1970-01-01. *)
Definition epoch : date := 719163.

(** [d - timedelta(days=i)] *)
Definition minus_days (d : date) (i : Z) : date := d - i.

(** Civil (year, month, day) of an ordinal: the 400-year-era computation. *)
Definition civil (d : date) : Z * Z * Z :=
  let z := d - epoch + 719468 in
  let era := z / 146097 in
  let doe := z - era * 146097 in
  let yoe := (doe - doe / 1460 + doe / 36524 - doe / 146096) / 365 in
  let doy := doe - (365 * yoe + yoe / 4 - yoe / 100) in
  let mp := (5 * doy + 2) / 153 in
  let dd := doy - (153 * mp + 2) / 5 + 1 in
  let mm := if mp <? 10 then mp + 3 else mp - 9 in
  let yy := yoe + era * 400 + (if mm <=? 2 then 1 else 0) in
  (yy, mm, dd).

Definition year (d : date) : Z := (civil d).1.1.

Definition digit (n : Z) : Ascii.ascii :=
  Ascii.ascii_of_nat (48 + Z.to_nat (n `mod` 10)).

(** Decimal numeral of fixed width, zero padded on the left. *)
Fixpoint zfill (width : nat) (n : Z) (acc : string) : string :=
  match width with
  | O => acc
  | S w => zfill w (n / 10) (String (digit n) acc)
  end.

(** Decimal numeral without padding (as [str(n)] for [n >= 0]). *)
Fixpoint str_digits (fuel : nat) (n : Z) (acc : string) : string :=
  match fuel with
  | O => acc
  | S f =>
      let acc' := String (digit n) acc in
      if n <? 10 then acc' else str_digits f (n / 10) acc'
  end.

Definition str_of_Z (n : Z) : string :=
  str_digits (S (Z.to_nat (Z.log2 n))) n "".

(** [d.strftime("%Y%m%d")] *)
Definition strftime_Ymd (d : date) : string :=
  let '(y, m, dd) := civil d in
  zfill 4 y (zfill 2 m (zfill 2 dd "")).

End Calendar.

Export Calendar.

(** ** Cells, exceptions and data frames *)

Inductive cell :=
| CFloat (x : float)
| CDate (d : date)
| CBool (b : bool)
| CStr (s : string)
| CNone.

(** [pandas.notna] on a scalar: [None] and NaN are null. *)
Definition notna (c : cell) : bool :=
  match c with
  | CNone => false
  | CFloat x => negb (PrimFloat.is_nan x)
  | _ => true
  end.

Inductive exn :=
| RuntimeError (msg : string)
| KeyError (key : string)
| ValueError (msg : string)
| IndexError (msg : string)
| OSError (path : string)
| HTTPError (status : Z)
| RequestException (kind : string)
| OtherException (cls msg : string).

(** [str(e)], as interpolated by an f-string. *)
Definition exn_str (e : exn) : string :=
  match e with
  | RuntimeError m | ValueError m | IndexError m => m
  | KeyError k => "'" +:+ k +:+ "'"
  | OSError p => p
  | HTTPError s => str_of_Z s +:+ " Error"
  | RequestException k => k
  | OtherException _ m => m
  end.

Inductive result (A : Type) :=
| Ok (a : A)
| Raise (e : exn).
Arguments Ok {A} a.
Arguments Raise {A} e.

Record DataFrame := mkDF {
  index : list Z;
  data : list (string * list cell);
}.

Module Frame.

Definition columns (df : DataFrame) : list string := (data df).*1.

(** [len(df)] *)
Definition len (df : DataFrame) : Z := Z.of_nat (length (index df)).

Fixpoint assoc {A} (c : string) (l : list (string * A)) : option A :=
  match l with
  | [] => None
  | (k, v) :: l' => if decide (k = c) then Some v else assoc c l'
  end.

(** [df[c]] as a column of cells. *)
Definition col (c : string) (df : DataFrame) : result (list cell) :=
  match assoc c (data df) with
  | Some v => Ok v
  | None => Raise (KeyError c)
  end.

(** [df[[c1; ...; cn]]]: the listed columns in the listed order, or
    [KeyError] at the first absent one. *)
Fixpoint pick (cs : list string) (d : list (string * list cell))
  : result (list (string * list cell)) :=
  match cs with
  | [] => Ok []
  | c :: cs' =>
      match assoc c d with
      | None => Raise (KeyError c)
      | Some v =>
          match pick cs' d with
          | Ok r => Ok ((c, v) :: r)
          | Raise e => Raise e
          end
      end
  end.

Definition select (cs : list string) (df : DataFrame) : result DataFrame :=
  match pick cs (data df) with
  | Ok d => Ok (mkDF (index df) d)
  | Raise e => Raise e
  end.

(** [df.rename(columns={old: new})] *)
Definition rename (old new : string) (df : DataFrame) : DataFrame :=
  mkDF (index df)
       (map (λ kv, (if decide (kv.1 = old) then new else kv.1, kv.2)) (data df)).

Fixpoint put {A} (c : string) (v : A) (l : list (string * A)) : list (string * A) :=
  match l with
  | [] => [(c, v)]
  | (k, w) :: l' => if decide (k = c) then (k, v) :: l' else (k, w) :: put c v l'
  end.

(** [df[c] = v] for a scalar [v]: broadcast over every row; the column is
    replaced in place when it exists and appended otherwise. *)
Definition assign_scalar (c : string) (v : cell) (df : DataFrame) : DataFrame :=
  mkDF (index df) (put c (replicate (length (index df)) v) (data df)).

(** [df[c] = vs] for a sequence: its length must be the row count. *)
Definition assign (c : string) (vs : list cell) (df : DataFrame) : result DataFrame :=
  if decide (length vs = length (index df))
  then Ok (mkDF (index df) (put c vs (data df)))
  else Raise (ValueError "Length of values does not match length of index").

(** Row [i] as a mapping from column name to cell. *)
Definition row (d : list (string * list cell)) (i : nat) : list (string * cell) :=
  map (λ kv, (kv.1, default CNone (kv.2 !! i))) d.

(** [df.to_dict(orient="records")] *)
Definition records (df : DataFrame) : list (list (string * cell)) :=
  map (row (data df)) (seq 0 (length (index df))).

(** Positional selection of rows ([df.take(locs)]): labels travel with
    their rows.  The one caller passes positions within range. *)
Definition gather {A} (dflt : A) (locs : list nat) (l : list A) : list A :=
  map (λ i, default dflt (l !! i)) locs.

Definition take (locs : list nat) (df : DataFrame) : DataFrame :=
  mkDF (gather 0 locs (index df))
       (map (λ kv, (kv.1, gather CNone locs kv.2)) (data df)).

(** [df.loc[label, c] = v]: every row carrying [label] is written; a new
    column is null elsewhere. *)
Definition loc_write (label : Z) (v : cell) (idx : list Z) (old : list cell) : list cell :=
  zip_with (λ l o, if decide (l = label) then v else o) idx old.

Definition loc_set (label : Z) (c : string) (v : cell) (df : DataFrame) : DataFrame :=
  let old := default (replicate (length (index df)) (CFloat nan)) (assoc c (data df)) in
  mkDF (index df) (put c (loc_write label v (index df) old) (data df)).

(** [df.index[-1]] *)
Definition last_label (df : DataFrame) : result Z :=
  match last (index df) with
  | Some l => Ok l
  | None => Raise (IndexError "index -1 is out of bounds for axis 0 with size 0")
  end.

(** [df[c].notna().sum()] *)
Definition notna_count (vs : list cell) : Z :=
  Z.of_nat (length (filter (λ c, notna c = true) vs)).

End Frame.

(** ** The world and the effect monad *)

Record request := mkReq { req_url : string; req_timeout : Z }.

(** What a sequence of bytes is once opened as a dataset and flattened. *)
Inductive payload :=
| NetCDF (flat : DataFrame)
| NotADataset.

(** Outcome of one [requests.get]: a response, or an exception raised by the
    transport (connection error, timeout, ...). *)
Inductive http_outcome :=
| Response (status_code : Z) (content : payload)
| Failure (e : exn).

(** Input/output performed by the process, as a system-call trace would
    show it. *)
Inductive event :=
| Stat (path : string)
| Get (rq : request)
| Write (path : string)
| Read (path : string).

Record world := mkWorld {
  environ : gmap string string;
  today : date;
  (* the remote side: its answer to a request, given what happened before *)
  net : list event → request → http_outcome;
  fs : gmap string payload;
  (* events so far, oldest first *)
  trace : list event;
  stdout : list string;
}.

Definition M (A : Type) : Type := world → result A * world.

Definition ret {A} (a : A) : M A := λ w, (Ok a, w).

Definition raise {A} (e : exn) : M A := λ w, (Raise e, w).

Definition bind {A B} (m : M A) (k : A → M B) : M B :=
  λ w, match m w with
       | (Ok a, w') => k a w'
       | (Raise e, w') => (Raise e, w')
       end.

(** [try: m except Exception as e: h e] *)
Definition try_except {A} (m : M A) (h : exn → M A) : M A :=
  λ w, match m w with
       | (Ok a, w') => (Ok a, w')
       | (Raise e, w') => h e w'
       end.

(** A pure computation that may raise. *)
Definition lift {A} (r : result A) : M A := λ w, (r, w).

Notation "x <- m ;; k" := (bind m (λ x, k))
  (at level 20, m at level 99, k at level 200, only parsing).
Notation "' p <- m ;; k" := (bind m (λ x, match x with p => k end))
  (at level 20, p pattern, m at level 99, k at level 200, only parsing).
Notation "m ;; k" := (bind m (λ _, k))
  (at level 100, k at level 200, only parsing, right associativity).

Module Sys.

Definition emit (e : event) (w : world) : world :=
  mkWorld (environ w) (today w) (net w) (fs w) (trace w ++ [e]) (stdout w).

Definition store (path : string) (content : payload) (w : world) : world :=
  mkWorld (environ w) (today w) (net w) (<[path := content]> (fs w))
          (trace w ++ [Write path]) (stdout w).

(** [os.path.exists(path)] *)
Definition path_exists (path : string) : M bool :=
  λ w, (Ok (bool_decide (is_Some (fs w !! path))), emit (Stat path) w).

(** [os.getenv(name, dflt)] *)
Definition getenv (name dflt : string) : M string :=
  λ w, (Ok (default dflt (environ w !! name)), w).

(** [date.today()] *)
Definition date_today : M date := λ w, (Ok (today w), w).

(** [requests.get(url, timeout=t)]: the request is recorded whatever its
    outcome. *)
Definition requests_get (url : string) (t : Z) : M (Z * payload) :=
  λ w, let rq := mkReq url t in
       match net w (trace w) rq with
       | Response s c => (Ok (s, c), emit (Get rq) w)
       | Failure e => (Raise e, emit (Get rq) w)
       end.

(** Whether a status code is a client or server error. *)
Definition is_http_error (status : Z) : bool := (400 <=? status) && (status <? 600).

(** [r.raise_for_status()] *)
Definition raise_for_status (status : Z) : M unit :=
  if is_http_error status then raise (HTTPError status) else ret tt.

(** [with open(path, "wb") as f: f.write(content)] *)
Definition write_file (path : string) (content : payload) : M unit :=
  λ w, (Ok tt, store path content w).

(** [xr.open_dataset(path, engine="h5netcdf").to_dataframe().reset_index()] *)
Definition open_flat (path : string) : M DataFrame :=
  λ w, match fs w !! path with
       | Some (NetCDF t) => (Ok t, emit (Read path) w)
       | _ => (Raise (OSError path), emit (Read path) w)
       end.

(** [print(line)] *)
Definition print (line : string) : M unit :=
  λ w, (Ok tt, mkWorld (environ w) (today w) (net w) (fs w) (trace w) (stdout w ++ [line])).

(** The network requests, and the existence checks, recorded in a trace. *)
Definition gets_of (t : list event) : list request :=
  omap (λ e, match e with Get rq => Some rq | _ => None end) t.


End Sys.

(** ** pipeline/fetch_noaa.py *)

Module FetchNoaa.
Import Sys.

Definition SST_BASE : M string :=
  getenv "NOAA_SST_BASE_URL"
    "https://www.star.nesdis.noaa.gov/pub/socd/mecb/crw/data/5km/v3.1_op/nc/v1.0/daily/sst".

Definition DHW_BASE : M string :=
  getenv "NOAA_DHW_BASE_URL"
    "https://www.star.nesdis.noaa.gov/pub/socd/mecb/crw/data/5km/v3.1_op/nc/v1.0/daily/dhw".

(** [range(n)] *)
Definition range (n : Z) : list Z := Z.of_nat <$> seq 0 (Z.to_nat n).

Definition _candidate_dates (days_back : Z) : M (list date) :=
  t <- date_today ;;
  ret ((λ i, minus_days t i) <$> range days_back).

Definition _download (url path : string) : M bool :=
  e <- path_exists path ;;
  if e then ret true
  else
    try_except
      (' (status, content) <- requests_get url 60 ;;
       if decide (status = 200)
       then (write_file path content ;; ret true)
       else ret false)
      (λ _, ret false).

(** [tmpl.format(date=v)]: every [{date}] field is replaced by [v]. *)
Fixpoint format_date (tmpl v : string) : string :=
  match tmpl with
  | String "{" (String "d" (String "a" (String "t" (String "e" (String "}" rest))))) =>
      v +:+ format_date rest v
  | String a rest => String a (format_date rest v)
  | EmptyString => EmptyString
  end.

Definition url_of (base_url fname_tmpl : string) (d : date) : string :=
  let fname := format_date fname_tmpl (strftime_Ymd d) in
  base_url +:+ "/" +:+ str_of_Z (year d) +:+ "/" +:+ fname.

Definition path_of (prefix : string) (d : date) : string :=
  prefix +:+ "_" +:+ strftime_Ymd d +:+ ".nc".

(** The [for d in ...] loop of [_download_latest]. *)
Fixpoint probe (base_url fname_tmpl prefix : string) (ds : list date)
  : M (option string * option date) :=
  match ds with
  | [] => ret (None, None)
  | d :: ds' =>
      ok <- _download (url_of base_url fname_tmpl d) (path_of prefix d) ;;
      if ok then ret (Some (path_of prefix d), Some d)
      else probe base_url fname_tmpl prefix ds'
  end.

Definition _download_latest (base_url fname_tmpl prefix : string)
  : M (option string * option date) :=
  ds <- _candidate_dates 3 ;;
  probe base_url fname_tmpl prefix ds.

(** The three dates of the default window, most recent first. *)
Definition window (w : world) : list date :=
  (λ i, minus_days (today w) i) <$> [0; 1; 2].

(** Whether [_download] answers True for date [d] in world [w]. *)
Definition acquired (base_url fname_tmpl prefix : string) (d : date) (w : world) : bool :=
  match (_download (url_of base_url fname_tmpl d) (path_of prefix d) w).1 with
  | Ok true => true
  | _ => false
  end.

(** The world left by trying the dates [ds] one after the other. *)
Definition after_probes (base_url fname_tmpl prefix : string) (ds : list date) (w : world)
  : world :=
  foldl (λ w d, (_download (url_of base_url fname_tmpl d) (path_of prefix d) w).2) w ds.

(** [for c in candidates: if c in df.columns: return c] *)
Fixpoint _find_col (df : DataFrame) (candidates : list string) : option string :=
  match candidates with
  | [] => None
  | c :: rest =>
      if decide (c ∈ Frame.columns df) then Some c else _find_col df rest
  end.

(** Equality of join keys: floats by value, and nulls match nulls. *)
Definition key_eqb (a b : cell) : bool :=
  match a, b with
  | CFloat x, CFloat y =>
      PrimFloat.eqb x y || (PrimFloat.is_nan x && PrimFloat.is_nan y)
  | CDate x, CDate y => bool_decide (x = y)
  | CBool x, CBool y => bool_decide (x = y)
  | CStr x, CStr y => bool_decide (x = y)
  | CNone, CNone => true
  | CNone, CFloat y => PrimFloat.is_nan y
  | CFloat x, CNone => PrimFloat.is_nan x
  | _, _ => false
  end.

Definition key_at (on : list string) (d : list (string * list cell)) (i : nat)
  : list cell :=
  (λ c, default CNone (default [] (Frame.assoc c d) !! i)) <$> on.

Fixpoint keys_eqb (k1 k2 : list cell) : bool :=
  match k1, k2 with
  | [], [] => true
  | a :: k1', b :: k2' => key_eqb a b && keys_eqb k1' k2'
  | _, _ => false
  end.

(** For each left row in order: the matching right rows in order, or a
    single unmatched entry. *)
Definition join_plan (on : list string) (l r : DataFrame) : list (nat * option nat) :=
  flat_map
    (λ i,
      match filter (λ j, keys_eqb (key_at on (data l) i) (key_at on (data r) j) = true)
                   (seq 0 (length (index r))) with
      | [] => [(i, None)]
      | js => (λ j, (i, Some j)) <$> js
      end)
    (seq 0 (length (index l))).

(** [l.merge(r, on=on, how="left")] for frames that both have the key
    columns and share no other column name (the one call site selects
    [lat; lon; sst] plus [date] on the left and [lat; lon; dhw] on the
    right).  The result is relabelled 0, 1, ...; unmatched right cells are
    NaN. *)
Definition merge_left (on : list string) (l r : DataFrame) : DataFrame :=
  let plan := join_plan on l r in
  let lcols :=
    (λ kv : string * list cell,
       (kv.1, (λ p : nat * option nat, default CNone (kv.2 !! p.1)) <$> plan)) <$> data l in
  let rcols :=
    (λ kv : string * list cell,
       (kv.1, (λ p : nat * option nat,
                 match p.2 with
                 | Some j => default CNone (kv.2 !! j)
                 | None => CFloat nan
                 end) <$> plan)) <$>
    filter (λ kv : string * list cell, kv.1 ∉ on) (data r) in
  mkDF (Z.of_nat <$> seq 0 (length plan)) (lcols ++ rcols).

Definition demo_index : list Z := [0; 1; 2].

Definition demo_crw (t : date) : DataFrame :=
  mkDF demo_index
    [ ("lat", [CFloat 6.5; CFloat 6.6; CFloat 6.7]);
      ("lon", [CFloat 92.5; CFloat 92.6; CFloat 92.7]);
      ("sst", [CFloat 28.2; CFloat 28.4; CFloat 28.3]);
      ("dhw", [CFloat 0.5; CFloat 0.6; CFloat 0.7]);
      ("date", [CDate t; CDate t; CDate t]) ].

Definition sst_candidates : list string :=
  ["sst"; "analysed_sst"; "sea_surface_temperature"].

Definition dhw_candidates : list string := ["dhw"; "degree_heating_week"].

(** [not p or not os.path.exists(p)] *)
Definition unavailable (p : option string) : M bool :=
  match p with
  | None => ret true
  | Some s =>
      if decide (s = "") then ret true
      else (e <- path_exists s ;; ret (negb e))
  end.

(** The optional DHW part of [fetch_noaa_crw]. *)
Definition attach_dhw (dhw_path : option string) (df_sst : DataFrame) : M DataFrame :=
  missing <- unavailable dhw_path ;;
  if missing then ret df_sst
  else
    df_dhw <- open_flat (default "" dhw_path) ;;
    match _find_col df_dhw dhw_candidates with
    | Some dhw_col =>
        df_dhw <- lift (Frame.select ["lat"; "lon"; dhw_col] df_dhw) ;;
        ret (merge_left ["lat"; "lon"] df_sst (Frame.rename dhw_col "dhw" df_dhw))
    | None => ret df_sst
    end.

(** The two locator calls that open [fetch_noaa_crw]. *)
Definition locate_sst : M (option string * option date) :=
  sst_base <- SST_BASE ;;
  _download_latest sst_base "coraltemp_v3.1_{date}.nc" "NOAA_SST".

Definition locate_dhw : M (option string * option date) :=
  dhw_base <- DHW_BASE ;;
  _download_latest dhw_base "ct5km_dhw_v3.1_{date}.nc" "NOAA_DHW".

(** The rest of [fetch_noaa_crw], from the [if not sst_path ...] test on. *)
Definition normalise_crw (sst_path : option string) (sst_date : option date)
    (dhw_path : option string) : M DataFrame :=
  missing <- unavailable sst_path ;;
  if missing then
    t <- date_today ;;
    ret (demo_crw t)
  else
    df_sst <- open_flat (default "" sst_path) ;;
    match _find_col df_sst sst_candidates with
    | None => raise (RuntimeError "Could not find SST variable in NOAA SST dataset")
    | Some sst_col =>
        df_sst <- lift (Frame.select ["lat"; "lon"; sst_col] df_sst) ;;
        d <- match sst_date with Some d => ret d | None => date_today end ;;
        let df_sst :=
          Frame.assign_scalar "date" (CDate d) (Frame.rename sst_col "sst" df_sst) in
        df_sst <- attach_dhw dhw_path df_sst ;;
        if decide ("dhw" ∈ Frame.columns df_sst) then ret df_sst
        else ret (Frame.assign_scalar "dhw" (CFloat 0) df_sst)
    end.

Definition fetch_noaa_crw : M DataFrame :=
  ' (sst_path, sst_date) <- locate_sst ;;
  ' (dhw_path, _) <- locate_dhw ;;
  normalise_crw sst_path sst_date dhw_path.

(** Whether every cell of a column is the float 0.0. *)
Definition all_zero (l : list cell) : bool :=
  forallb (λ c, match c with CFloat x => PrimFloat.eqb x 0 | _ => false end) l.

(** The DHW signal is absent (no file located) or its variable does not
    resolve (the located file holds none of the candidate names). *)
Definition dhw_unresolved (dhw_path : option string) (w : world) : Prop :=
  dhw_path = None ∨
  ∃ p t, dhw_path = Some p ∧ fs w !! p = Some (NetCDF t) ∧
         _find_col t dhw_candidates = None.

Definition ph_path : string := "NOAA_PH_FILE.nc".

Definition demo_ph (t : date) : DataFrame :=
  mkDF demo_index
    [ ("lat", [CFloat 6.5; CFloat 6.6; CFloat 6.7]);
      ("lon", [CFloat 92.5; CFloat 92.6; CFloat 92.7]);
      ("ph", [CFloat 8.10; CFloat 8.11; CFloat 8.09]);
      ("date", [CDate t; CDate t; CDate t]) ].

(** The optional download that opens [fetch_noaa_ph]:
    [if ph_url and not os.path.exists(ph_path): try: ... except Exception: pass] *)
Definition download_ph : M unit :=
  ph_url <- getenv "NOAA_PH_URL" "" ;;
  wanted <- (if decide (ph_url = "") then ret false
             else (e <- path_exists ph_path ;; ret (negb e))) ;;
  if wanted then
    try_except
      (' (status, content) <- requests_get ph_url 30 ;;
       raise_for_status status ;;
       write_file ph_path content)
      (λ _, ret tt)
  else ret tt.

(** The rest of [fetch_noaa_ph], from [if not os.path.exists(ph_path)] on. *)
Definition read_ph : M DataFrame :=
  present <- path_exists ph_path ;;
  if negb present then
    t <- date_today ;;
    ret (demo_ph t)
  else
    ph_df <- open_flat ph_path ;;
    ph_df <- lift (Frame.select ["lat"; "lon"; "ph"] ph_df) ;;
    t <- date_today ;;
    ret (Frame.assign_scalar "date" (CDate t) ph_df).

Definition fetch_noaa_ph : M DataFrame :=
  download_ph ;;
  read_ph.

(** The configured pH URL. *)
Definition ph_url_of (w : world) : string := default "" (environ w !! "NOAA_PH_URL").

End FetchNoaa.

(** ** pipeline/run_pipeline.py *)

Module RunPipeline.
Import Sys.

Definition FAST_MODE : bool := true.
Definition MAX_ROWS_FAST : Z := 5000.

Definition persisted_columns : list string :=
  ["date"; "lat"; "lon"; "sst"; "dhw"; "ph"; "health_score"; "anomaly"; "forecast_ph"].

Section Collaborators.

(** Modules of the repository that the orchestrator imports
    ([pipeline.fetch_allen], [pipeline.clean_transform],
    [pipeline.merge_data], [ml.model], [backend.database]) and the
    library generator behind [DataFrame.sample]: arbitrary effectful,
    fallible functions that return fresh values. *)
Variable GeoDataFrame : Type.
Variable LstmModel : Type.
Variable fetch_allen_coral_atlas : DataFrame → M GeoDataFrame.
Variable clean_noaa : DataFrame → M DataFrame.
Variable clean_allen : GeoDataFrame → M GeoDataFrame.
Variable integrate_ph : DataFrame → DataFrame → M DataFrame.
Variable spatial_merge : DataFrame → GeoDataFrame → M DataFrame.
Variable health_score : list (string * cell) → M cell.
Variable detect_anomaly : list cell → M (list cell).
Variable train_lstm : list cell → M LstmModel.
Variable forecast_lstm : LstmModel → list cell → Z → M (list float).
Variable db_init_db : M unit.
(** [with db.engine.begin() as conn: conn.execute(insert(OceanMetrics), records)] *)
Variable db_insert : list (list (string * cell)) → M unit.
(** Positions drawn without replacement by a generator seeded with
    [seed], from a population of the given size. *)
Variable choice : Z → nat → nat → list nat.

(** [df.sample(n, random_state=seed)] *)
Definition sample (n seed : Z) (df : DataFrame) : result DataFrame :=
  if (0 <=? n) && (n <=? Frame.len df)
  then Ok (Frame.take (choice seed (length (index df)) (Z.to_nat n)) df)
  else Raise (ValueError "Cannot take a larger sample than population when 'replace=False'").

(** Steps 1 to 5: fetch, clean, integrate pH, spatial merge. *)
Definition build_merged : M DataFrame :=
  print "Step 1: Fetching NOAA CRW data..." ;;
  noaa <- FetchNoaa.fetch_noaa_crw ;;
  ph <- FetchNoaa.fetch_noaa_ph ;;
  print "Step 2: Fetching Allen Coral Atlas..." ;;
  allen <- fetch_allen_coral_atlas noaa ;;
  print "Step 3: Cleaning data..." ;;
  noaa <- clean_noaa noaa ;;
  allen <- clean_allen allen ;;
  print "Step 4: Integrating pH data..." ;;
  merged <- integrate_ph noaa ph ;;
  print "Step 5: Spatial merge with coral reefs..." ;;
  spatial_merge merged allen.

(** [if fast_mode and len(merged) > max_rows: merged = merged.sample(..)] *)
Definition sample_stage (fast_mode : bool) (max_rows : Z) (merged : DataFrame)
  : M DataFrame :=
  if fast_mode && (max_rows <? Frame.len merged)
  then lift (sample max_rows 42 merged)
  else ret merged.

(** [for row in rows: f(row)], collecting the results. *)
Fixpoint apply_rows (f : list (string * cell) → M cell)
    (rows : list (list (string * cell))) : M (list cell) :=
  match rows with
  | [] => ret []
  | r :: rows' =>
      v <- f r ;;
      vs <- apply_rows f rows' ;;
      ret (v :: vs)
  end.

(** Step 6: health score per row, anomaly flags over the sst column. *)
Definition score_stage (merged : DataFrame) : M DataFrame :=
  print "Step 6: Running ML predictions..." ;;
  hs <- apply_rows health_score (Frame.records merged) ;;
  merged <- lift (Frame.assign "health_score" hs merged) ;;
  sst <- lift (Frame.col "sst" merged) ;;
  an <- detect_anomaly sst ;;
  lift (Frame.assign "anomaly" an merged).

(** [not fast_mode and merged["ph"].notna().sum() >= 30] *)
Definition forecast_guard (fast_mode : bool) (merged : DataFrame) : M bool :=
  if negb fast_mode then
    ph <- lift (Frame.col "ph" merged) ;;
    ret (30 <=? Frame.notna_count ph)
  else ret false.

(** The body of the [try] block. *)
Definition forecast_attempt (merged : DataFrame) : M DataFrame :=
  ph <- lift (Frame.col "ph" merged) ;;
  model <- train_lstm ph ;;
  ph <- lift (Frame.col "ph" merged) ;;
  forecast <- forecast_lstm model ph 7 ;;
  v <- match forecast with
       | v :: _ => ret v
       | [] => raise (IndexError "list index out of range")
       end ;;
  label <- lift (Frame.last_label merged) ;;
  ret (Frame.loc_set label "forecast_ph" (CFloat v) merged).

Definition forecast_stage (fast_mode : bool) (merged : DataFrame) : M DataFrame :=
  let merged := Frame.assign_scalar "forecast_ph" CNone merged in
  go <- forecast_guard fast_mode merged ;;
  if go then
    try_except (forecast_attempt merged)
      (λ e, print ("LSTM forecast skipped: " +:+ exn_str e) ;; ret merged)
  else ret merged.

(** The rows handed to the insert. *)
Definition to_records (merged : DataFrame) : result (list (list (string * cell))) :=
  match Frame.select persisted_columns merged with
  | Ok t => Ok (Frame.records (Frame.rename "lon" "longitude" (Frame.rename "lat" "latitude" t)))
  | Raise e => Raise e
  end.

(** Step 7. *)
Definition persist (merged : DataFrame) : M unit :=
  print "Step 7: Storing to PostgreSQL..." ;;
  db_init_db ;;
  records <- lift (to_records merged) ;;
  print ("Inserting " +:+ str_of_Z (Z.of_nat (length records)) +:+ " rows into PostgreSQL...") ;;
  db_insert records ;;
  print "PostgreSQL insert completed successfully" ;;
  print "Pipeline completed successfully!".

(** The orchestrator with the two module-level settings made explicit. *)
Definition run_pipeline (fast_mode : bool) (max_rows : Z) : M unit :=
  merged <- build_merged ;;
  merged <- sample_stage fast_mode max_rows merged ;;
  merged <- score_stage merged ;;
  merged <- forecast_stage fast_mode merged ;;
  persist merged.

Definition run_daily_pipeline : M unit := run_pipeline FAST_MODE MAX_ROWS_FAST.

End Collaborators.

End RunPipeline.

(** ** Concrete worlds used as test inputs *)

Module Scenario.
Import Sys.

(** 2026-11-04 *)
Definition a_day : date := 739924.

Definition offline : list event → request → http_outcome :=
  λ _ _, Failure (RequestException "ConnectionError").

Definition world_with (env : gmap string string)
    (remote : list event → request → http_outcome) (files : gmap string payload) : world :=
  mkWorld env a_day remote files [] [].

(** No cached file and no reachable server. *)
Definition world_offline : world := world_with ∅ offline ∅.

(** A two-point SST grid whose second point has no value (NaN). *)
Definition sst_table : DataFrame :=
  mkDF [0; 1]
    [ ("time", [CDate a_day; CDate a_day]);
      ("lat", [CFloat 6.5; CFloat 6.6]);
      ("lon", [CFloat 92.5; CFloat 92.6]);
      ("analysed_sst", [CFloat 28.2; CFloat nan]) ].

(** The same grid with the measurement under a name that is no candidate. *)
Definition sst_table_drifted : DataFrame :=
  mkDF [0; 1]
    [ ("lat", [CFloat 6.5; CFloat 6.6]);
      ("lon", [CFloat 92.5; CFloat 92.6]);
      ("temperature", [CFloat 28.2; CFloat 28.4]) ].

(** A DHW grid that covers only the first SST point. *)
Definition dhw_table : DataFrame :=
  mkDF [0]
    [ ("lat", [CFloat 6.5]);
      ("lon", [CFloat 92.5]);
      ("degree_heating_week", [CFloat 1.5]) ].



Definition world_sst_only : world :=
  world_with ∅ offline {[ "NOAA_SST_20261104.nc" := NetCDF sst_table ]}.


Definition world_sst_dhw : world :=
  world_with ∅ offline
    (<[ "NOAA_DHW_20261104.nc" := NetCDF dhw_table ]>
       {[ "NOAA_SST_20261104.nc" := NetCDF sst_table ]}).

(** A server that has yesterday's SST file only. *)
Definition yesterday_only : list event → request → http_outcome :=
  λ _ rq,
    if decide (req_url rq = "https://host/sst/2026/coraltemp_v3.1_20261103.nc")
    then Response 200 (NetCDF sst_table)
    else Response 404 NotADataset.

Definition world_yesterday : world :=
  world_with {[ "NOAA_SST_BASE_URL" := "https://host/sst" ]} yesterday_only ∅.

(** A pH file with its own observation date, cached locally. *)
Definition ph_table : DataFrame :=
  mkDF [0; 1]
    [ ("date", [CDate 738946; CDate 738946]);
      ("lat", [CFloat 6.5; CFloat 6.6]);
      ("lon", [CFloat 92.5; CFloat 92.6]);
      ("ph", [CFloat 8.05; CFloat nan]);
      ("alkalinity", [CFloat 2300; CFloat 2310]) ].

(** The same measurements under another variable name. *)
Definition ph_table_drifted : DataFrame :=
  mkDF [0; 1]
    [ ("lat", [CFloat 6.5; CFloat 6.6]);
      ("lon", [CFloat 92.5; CFloat 92.6]);
      ("ph_total", [CFloat 8.05; CFloat 8.07]) ].

Definition world_ph_cached : world :=
  world_with ∅ offline {[ "NOAA_PH_FILE.nc" := NetCDF ph_table ]}.

Definition world_ph_drift : world :=
  world_with ∅ offline {[ "NOAA_PH_FILE.nc" := NetCDF ph_table_drifted ]}.

(** A configured pH URL whose server answers 503. *)
Definition world_ph_unavailable : world :=
  world_with {[ "NOAA_PH_URL" := "https://host/ph.nc" ]}
             (λ _ _, Response 503 NotADataset) ∅.

(** A configured pH URL whose server delivers the file. *)
Definition world_ph_served : world :=
  world_with {[ "NOAA_PH_URL" := "https://host/ph.nc" ]}
             (λ _ _, Response 200 (NetCDF ph_table)) ∅.

(** A generator that always draws the first positions. *)
Definition first_positions : Z → nat → nat → list nat := λ _ _ n, seq 0 n.


(** Thirty rows with a pH value each; the last two carry the same label, as
    when one grid point matches two reef polygons in a spatial join. *)
Definition thirty_rows : DataFrame :=
  mkDF ((Z.of_nat <$> seq 0 29) ++ [28])
    [ ("sst", replicate 30 (CFloat 28.2));
      ("ph", replicate 30 (CFloat 8.1)) ].

(** The same thirty rows labelled 0 to 29. *)
Definition thirty_rows_unique : DataFrame :=
  mkDF (Z.of_nat <$> seq 0 30) (data thirty_rows).

(** A forecaster that trains to nothing and predicts a flat 8.0. *)
Definition flat_train : list cell → M unit := λ _, ret tt.
Definition flat_forecast : unit → list cell → Z → M (list float) :=
  λ _ _ steps, ret (replicate (Z.to_nat steps) 8%float).

(** A forecaster whose training fails. *)
Definition failing_train : list cell → M unit :=
  λ _, raise (OtherException "InvalidArgumentError" "training diverged").

End Scenario.

(** ** Footprints *)

Module Footprint.
Import Sys.

(** [w'] is [w] after existence checks and file reads only: nothing was
    requested, written or printed. *)
Definition only_looked (w w' : world) : Prop :=
  environ w' = environ w ∧ today w' = today w ∧ net w' = net w ∧
  fs w' = fs w ∧ stdout w' = stdout w ∧
  gets_of (trace w') = gets_of (trace w).

Definition looks_only {A} (m : M A) : Prop := ∀ w, only_looked w (m w).2.

(** The files of [w'] are those of [w] plus at most one new file, whose
    path satisfies [P]. *)
Definition at_most_one_new (P : string → Prop) (w w' : world) : Prop :=
  fs w' = fs w ∨
  ∃ p c, P p ∧ fs w !! p = None ∧ fs w' = <[p := c]> (fs w).

(** The string a configuration read yields in [w]. *)
Definition read_in (m : M string) (w : world) : string :=
  match (m w).1 with
  | Ok s => s
  | Raise _ => ""
  end.

End Footprint.

(** ** Further test inputs *)

Module Cases.
Import Sys Scenario.

(** A server that answers every request with status 200 and a body that is
    no dataset (an HTML page, say). *)
Definition junk_server : list event → request → http_outcome :=
  λ _ _, Response 200 NotADataset.

Definition world_junk : world := world_with ∅ junk_server ∅.

(** A good SST file next to a DHW file that cannot be opened. *)
Definition world_dhw_corrupt : world :=
  world_with ∅ offline
    (<[ "NOAA_DHW_20261104.nc" := NotADataset ]>
       {[ "NOAA_SST_20261104.nc" := NetCDF sst_table ]}).

(** A DHW file whose coordinates are named differently. *)
Definition dhw_table_no_lat : DataFrame :=
  mkDF [0]
    [ ("latitude", [CFloat 6.5]);
      ("lon", [CFloat 92.5]);
      ("dhw", [CFloat 1.5]) ].

Definition world_dhw_no_lat : world :=
  world_with ∅ offline
    (<[ "NOAA_DHW_20261104.nc" := NetCDF dhw_table_no_lat ]>
       {[ "NOAA_SST_20261104.nc" := NetCDF sst_table ]}).

(** Yesterday's SST file is served, and a pH file is cached. *)
Definition world_yesterday_ph : world :=
  world_with {[ "NOAA_SST_BASE_URL" := "https://host/sst" ]} yesterday_only
             {[ "NOAA_PH_FILE.nc" := NetCDF ph_table ]}.

(** A pH server that answers 203 with the file. *)
Definition world_ph_203 : world :=
  world_with {[ "NOAA_PH_URL" := "https://host/ph.nc" ]}
             (λ _ _, Response 203 (NetCDF ph_table)) ∅.

(** A scored table with every persisted column and one more. *)
Definition scored_table : DataFrame :=
  mkDF [4; 7]
    [ ("lat", [CFloat 6.5; CFloat 6.6]);
      ("lon", [CFloat 92.5; CFloat 92.6]);
      ("sst", [CFloat 28.2; CFloat 28.4]);
      ("date", [CDate a_day; CDate a_day]);
      ("dhw", [CFloat 0; CFloat 0]);
      ("ph", [CFloat 8.1; CFloat nan]);
      ("reef_id", [CStr "r1"; CStr "r2"]);
      ("health_score", [CFloat 0.9; CFloat 0.8]);
      ("anomaly", [CBool false; CBool true]);
      ("forecast_ph", [CNone; CNone]) ].

(** The same table before scoring, without a pH column. *)
Definition merged_without_ph : DataFrame :=
  mkDF [4; 7]
    [ ("lat", [CFloat 6.5; CFloat 6.6]);
      ("lon", [CFloat 92.5; CFloat 92.6]);
      ("sst", [CFloat 28.2; CFloat 28.4]);
      ("date", [CDate a_day; CDate a_day]);
      ("dhw", [CFloat 0; CFloat 0]) ].

(** Scoring functions that succeed without touching the world. *)
Definition const_score : list (string * cell) → M cell := λ _, ret (CFloat 0.5).
Definition no_anomaly : list cell → M (list cell) :=
  λ sst, ret ((λ _, CBool false) <$> sst).

(** Database actions that only leave a line on standard output. *)
Definition noting_init : M unit := print "init_db".
Definition noting_insert : list (list (string * cell)) → M unit :=
  λ _, print "insert".

End Cases.

(** ** Storage names *)

Module Storage.

(** The name a persisted column has in a stored record:
    [rename(columns={"lat": "latitude", "lon": "longitude"})]. *)
Definition stored_name (c : string) : string :=
  if decide (c = "lat") then "latitude"
  else if decide (c = "lon") then "longitude"
  else c.

End Storage.

(** * Properties *)

Import Sys FetchNoaa RunPipeline.

(** ** Variable resolution *)

Lemma find_col_Some (df : DataFrame) (candidates : list string) (c : string) :
  _find_col df candidates = Some c ↔
  ∃ before after,
    candidates = before ++ c :: after ∧ c ∈ Frame.columns df ∧
    ∀ x, x ∈ before → x ∉ Frame.columns df.
Proof.
  induction candidates as [|a rest IH]; simpl.
  - split; [discriminate|].
    intros (before & after & E & _). by destruct before.
  - destruct (decide (a ∈ Frame.columns df)) as [Hin|Hout].
    + split.
      * intros [= <-]. exists [], rest. split_and!; [done|done|]. by intros x ?%elem_of_nil.
      * intros (before & after & E & Hc & Hb).
        destruct before as [|b before]; simpl in E.
        -- by injection E as -> _.
        -- injection E as -> _. exfalso. apply (Hb b); [left|done].
    + rewrite IH. split.
      * intros (before & after & -> & Hc & Hb).
        exists (a :: before), after. split_and!; [done|done|].
        intros x [->|Hx]%elem_of_cons; auto.
      * intros (before & after & E & Hc & Hb).
        destruct before as [|b before]; simpl in E.
        -- injection E as -> _. done.
        -- injection E as -> ->. exists before, after. split_and!; [done|done|].
           intros x Hx. apply Hb. by right.
Qed.

Lemma find_col_None (df : DataFrame) (candidates : list string) :
  _find_col df candidates = None ↔ ∀ c, c ∈ candidates → c ∉ Frame.columns df.
Proof.
  induction candidates as [|a rest IH]; simpl.
  - split; [|done]. by intros _ c ?%elem_of_nil.
  - destruct (decide (a ∈ Frame.columns df)) as [Hin|Hout].
    + split; [discriminate|]. intros H. exfalso. apply (H a); [left|done].
    + rewrite IH. split.
      * intros H c [->|Hc]%elem_of_cons; auto.
      * intros H c Hc. apply H. by right.
Qed.

(** C8. [_find_col] returns the first candidate, in list order, that is a
    column of the frame, and [None] exactly when no candidate is a column; on
    any frame whose columns are sea_surface_temperature, lat and lon (in any
    order) the SST candidates resolve to "sea_surface_temperature".  Being a
    function into [option], it has no error path. *)
Theorem find_col_first_match (df : DataFrame) (candidates : list string) :
  (∀ c, _find_col df candidates = Some c ↔
        ∃ before after,
          candidates = before ++ c :: after ∧ c ∈ Frame.columns df ∧
          ∀ x, x ∈ before → x ∉ Frame.columns df) ∧
  (_find_col df candidates = None ↔ ∀ c, c ∈ candidates → c ∉ Frame.columns df) ∧
  (∃ r, _find_col df candidates = r) ∧
  (∀ df', Frame.columns df' ≡ₚ ["sea_surface_temperature"; "lat"; "lon"] →
          _find_col df' ["sst"; "analysed_sst"; "sea_surface_temperature"]
          = Some "sea_surface_temperature").
Proof.
  split_and!.
  - intros c. apply find_col_Some.
  - apply find_col_None.
  - by eexists.
  - intros df' Hp. apply find_col_Some.
    exists ["sst"; "analysed_sst"], []. split_and!; [done| |].
    + rewrite Hp. by left.
    + intros x Hx. rewrite Hp, !elem_of_cons, elem_of_nil.
      rewrite !elem_of_cons, elem_of_nil in Hx.
      destruct Hx as [->|[->|[]]]; intros [?|[?|[?|[]]]]; discriminate.
Qed.

(** ** The caching fetcher *)

Lemma download_cached (url path : string) (w : world) :
  is_Some (fs w !! path) → _download url path w = (Ok true, emit (Stat path) w).
Proof.
  intros Hc. unfold _download, bind, path_exists.
  by rewrite bool_decide_eq_true_2.
Qed.

Lemma download_uncached (url path : string) (w : world) :
  fs w !! path = None →
  _download url path w =
  let w1 := emit (Stat path) w in
  let rq := mkReq url 60 in
  match net w (trace w1) rq with
  | Response status body =>
      if decide (status = 200)
      then (Ok true, store path body (emit (Get rq) w1))
      else (Ok false, emit (Get rq) w1)
  | Failure _ => (Ok false, emit (Get rq) w1)
  end.
Proof.
  intros Hn. unfold _download, bind, path_exists.
  rewrite bool_decide_eq_false_2 by (rewrite Hn; by intros [? ?]).
  unfold try_except, bind, requests_get. simpl.
  destruct (net w (trace w ++ [Stat path]) (mkReq url 60)) as [status body|e]; [|done].
  by destruct (decide (status = 200)).
Qed.

Lemma gets_of_app (t1 t2 : list event) : gets_of (t1 ++ t2) = gets_of t1 ++ gets_of t2.
Proof. apply omap_app. Qed.



(** ** The dated-resource locator *)

Section Locator.

Variables base_url fname_tmpl prefix : string.

Let url := url_of base_url fname_tmpl.
Let path := path_of prefix.
Let acq := acquired base_url fname_tmpl prefix.
Let after := after_probes base_url fname_tmpl prefix.

Lemma download_total (u p : string) (w : world) :
  ∃ b, (_download u p w).1 = Ok b.
Proof.
  destruct (fs w !! p) as [c|] eqn:Hp.
  - rewrite download_cached by (by rewrite Hp). by eexists.
  - rewrite download_uncached by done. simpl.
    destruct (net w _ _) as [status body|e]; [destruct (decide (status = 200))|];
      by eexists.
Qed.


Lemma download_gets (u p : string) (w : world) :
  ∃ l, gets_of (trace (_download u p w).2) = gets_of (trace w) ++ l ∧
       l `sublist_of` [mkReq u 60].
Proof.
  destruct (fs w !! p) as [c|] eqn:Hp.
  - rewrite download_cached by (by rewrite Hp). exists []. split.
    + simpl. rewrite gets_of_app. simpl. by rewrite !app_nil_r.
    + apply sublist_nil_l.
  - exists [mkReq u 60]. split; [|done].
    rewrite download_uncached by done. simpl.
    destruct (net w _ _) as [status body|e]; [destruct (decide (status = 200))|];
      simpl; rewrite !gets_of_app; simpl; by rewrite !app_nil_r.
Qed.

Lemma download_keeps_files (u p : string) (w : world) :
  fs w ⊆ fs (_download u p w).2.
Proof.
  destruct (fs w !! p) as [c|] eqn:Hp.
  - by rewrite download_cached by (by rewrite Hp).
  - rewrite download_uncached by done. simpl.
    destruct (net w _ _) as [status body|e]; [destruct (decide (status = 200))|];
      simpl; try done.
    by apply insert_subseteq.
Qed.

Lemma probe_cons (d : date) (ds : list date) (w : world) :
  probe base_url fname_tmpl prefix (d :: ds) w =
  if acq d w then (Ok (Some (path d), Some d), after [d] w)
  else probe base_url fname_tmpl prefix ds (after [d] w).
Proof.
  subst acq after. unfold acquired, after_probes. simpl. unfold bind.
  destruct (download_total (url_of base_url fname_tmpl d) (path_of prefix d) w) as [b Hb].
  destruct (_download _ _ w) as [r w1]. simpl in *. subst r.
  by destruct b.
Qed.

Lemma after_cons (d : date) (ds : list date) (w : world) :
  after (d :: ds) w = after ds (after [d] w).
Proof. done. Qed.




Lemma after_gets (ds : list date) :
  ∀ w : world,
    ∃ l, gets_of (trace (after ds w)) = gets_of (trace w) ++ l ∧
         l `sublist_of` ((λ d, mkReq (url d) 60) <$> ds).
Proof.
  induction ds as [|d ds IH]; intros w.
  - exists []. simpl. by rewrite app_nil_r.
  - rewrite after_cons. destruct (IH (after [d] w)) as (l & -> & Hl).
    subst after. unfold after_probes. simpl.
    destruct (download_gets (url_of base_url fname_tmpl d) (path_of prefix d) w)
      as (l0 & -> & Hl0).
    exists (l0 ++ l). split; [by rewrite app_assoc|].
    by apply (sublist_app l0 [mkReq (url d) 60] l).
Qed.

Lemma after_keeps_files (ds : list date) :
  ∀ w : world, fs w ⊆ fs (after ds w).
Proof.
  induction ds as [|d ds IH]; intros w; [done|].
  rewrite after_cons. etrans; [|apply IH].
  apply download_keeps_files.
Qed.


Lemma download_latest_probe (w : world) :
  _download_latest base_url fname_tmpl prefix w
  = probe base_url fname_tmpl prefix (window w) w.
Proof. done. Qed.

End Locator.

Lemma probe_stops_in_list (base_url fname_tmpl prefix : string) (ds : list date) :
  ∀ w : world,
    ∃ (n : nat) r,
      (n ≤ length ds)%nat ∧
      probe base_url fname_tmpl prefix ds w
      = (Ok r, after_probes base_url fname_tmpl prefix (take n ds) w).
Proof.
  induction ds as [|d ds IH]; intros w.
  - exists 0%nat, (None, None). by split.
  - rewrite probe_cons. destruct (acquired base_url fname_tmpl prefix d w).
    + exists 1%nat. eexists. split; [simpl; lia|done].
    + destruct (IH (after_probes base_url fname_tmpl prefix [d] w)) as (n & r & Hn & ->).
      exists (S n), r. split; [simpl; lia|done].
Qed.


(** The window crosses month and year boundaries as the calendar does. *)
Example window_new_year :
  strftime_Ymd <$> [minus_days 739618 0; minus_days 739618 1; minus_days 739618 2]
  = ["20260102"; "20260101"; "20251231"] ∧
  url_of "https://host/sst" "coraltemp_v3.1_{date}.nc" (minus_days 739618 2)
  = "https://host/sst/2025/coraltemp_v3.1_20251231.nc" ∧
  path_of "NOAA_SST" (minus_days 739618 2) = "NOAA_SST_20251231.nc".
Proof. by vm_compute. Qed.

(** Today's file is missing on the server (404), yesterday's is served: the
    locator stops at the second date, after two existence checks, two requests
    and one write. *)
Example locate_yesterday :
  (locate_sst Scenario.world_yesterday).1
  = Ok (Some "NOAA_SST_20261103.nc", Some (minus_days Scenario.a_day 1)) ∧
  trace (locate_sst Scenario.world_yesterday).2
  = [ Stat "NOAA_SST_20261104.nc";
      Get (mkReq "https://host/sst/2026/coraltemp_v3.1_20261104.nc" 60);
      Stat "NOAA_SST_20261103.nc";
      Get (mkReq "https://host/sst/2026/coraltemp_v3.1_20261103.nc" 60);
      Write "NOAA_SST_20261103.nc" ] ∧
  (locate_sst (locate_sst Scenario.world_yesterday).2).1
  = Ok (Some "NOAA_SST_20261103.nc", Some (minus_days Scenario.a_day 1)) ∧
  gets_of (trace (locate_sst (locate_sst Scenario.world_yesterday).2).2)
  = gets_of (trace (locate_sst Scenario.world_yesterday).2
             ++ [Get (mkReq "https://host/sst/2026/coraltemp_v3.1_20261104.nc" 60)]) ∧
  (locate_sst Scenario.world_offline).1 = Ok (None, None).
Proof.
  split_and!.
  - vm_compute. reflexivity.
  - vm_compute. reflexivity.
  - vm_compute. reflexivity.
  - vm_compute. reflexivity.
  - vm_compute. reflexivity.
Qed.

(** ** What a locator run leaves behind *)

Lemma download_setting (u p : string) (w : world) :
  environ (_download u p w).2 = environ w ∧ today (_download u p w).2 = today w.
Proof.
  destruct (fs w !! p) as [c|] eqn:Hp.
  - by rewrite download_cached by (by rewrite Hp).
  - rewrite download_uncached by done. simpl.
    by destruct (net w _ _) as [status body|e]; [destruct (decide (status = 200))|].
Qed.

Lemma download_true_exists (u p : string) (w : world) :
  (_download u p w).1 = Ok true → is_Some (fs (_download u p w).2 !! p).
Proof.
  destruct (fs w !! p) as [c|] eqn:Hp.
  - rewrite download_cached by (by rewrite Hp). simpl. by rewrite Hp.
  - rewrite download_uncached by done. simpl.
    destruct (net w _ _) as [status body|e]; [destruct (decide (status = 200))|];
      simpl; try discriminate.
    intros _. rewrite lookup_insert_eq. by eexists.
Qed.

Lemma probe_shape (base_url fname_tmpl prefix : string) (ds : list date) :
  ∀ w : world,
    ∃ r w',
      probe base_url fname_tmpl prefix ds w = (Ok r, w') ∧
      fs w ⊆ fs w' ∧ environ w' = environ w ∧ today w' = today w ∧
      (r = (None, None) ∨
       ∃ d, d ∈ ds ∧ r = (Some (path_of prefix d), Some d) ∧
            is_Some (fs w' !! path_of prefix d)).
Proof.
  induction ds as [|d ds IH]; intros w.
  - exists (None, None), w. split_and!; try done. by left.
  - rewrite probe_cons. unfold acquired, after_probes. simpl.
    pose proof (download_keeps_files (url_of base_url fname_tmpl d) (path_of prefix d) w) as Hk.
    pose proof (download_setting (url_of base_url fname_tmpl d) (path_of prefix d) w) as [He Ht].
    pose proof (download_true_exists (url_of base_url fname_tmpl d) (path_of prefix d) w) as Hx.
    destruct (_download _ _ w) as [r1 w1]. simpl in *.
    destruct r1 as [[|]|e].
    + eexists _, _. split_and!; try done. right. exists d. split_and!; [left|done|by apply Hx].
    + destruct (IH w1) as (r & w' & -> & Hs & He' & Ht' & Hr).
      exists r, w'. split_and!; [done|by etrans|congruence|congruence|].
      destruct Hr as [->|(d' & Hd' & -> & Hf)]; [by left|].
      right. exists d'. split_and!; [by right|done|done].
    + destruct (IH w1) as (r & w' & -> & Hs & He' & Ht' & Hr).
      exists r, w'. split_and!; [done|by etrans|congruence|congruence|].
      destruct Hr as [->|(d' & Hd' & -> & Hf)]; [by left|].
      right. exists d'. split_and!; [by right|done|done].
Qed.

Lemma path_of_nonempty (prefix : string) (d : date) : path_of prefix d ≠ "".
Proof. unfold path_of. by destruct prefix. Qed.

Lemma locate_sst_shape (w : world) :
  ∃ r w',
    locate_sst w = (Ok r, w') ∧
    fs w ⊆ fs w' ∧ environ w' = environ w ∧ today w' = today w ∧
    (r = (None, None) ∨
     ∃ d, d ∈ window w ∧ r = (Some (path_of "NOAA_SST" d), Some d) ∧
          is_Some (fs w' !! path_of "NOAA_SST" d)).
Proof. apply probe_shape. Qed.

Lemma locate_dhw_shape (w : world) :
  ∃ r w',
    locate_dhw w = (Ok r, w') ∧
    fs w ⊆ fs w' ∧ environ w' = environ w ∧ today w' = today w ∧
    (r = (None, None) ∨
     ∃ d, d ∈ window w ∧ r = (Some (path_of "NOAA_DHW" d), Some d) ∧
          is_Some (fs w' !! path_of "NOAA_DHW" d)).
Proof. apply probe_shape. Qed.

(** ** The SST and DHW normaliser *)

#[local] Arguments _find_col : simpl never.

Lemma assoc_is_Some {A} (c : string) (l : list (string * A)) :
  c ∈ l.*1 → ∃ v, Frame.assoc c l = Some v.
Proof.
  induction l as [|[k v] l IH]; simpl.
  - by intros ?%elem_of_nil.
  - destruct (decide (k = c)) as [->|Hne]; [by eexists|].
    intros [?|Hin]%elem_of_cons; [congruence|]. by apply IH.
Qed.

Lemma find_col_elem (df : DataFrame) (candidates : list string) (c : string) :
  _find_col df candidates = Some c → c ∈ candidates ∧ c ∈ Frame.columns df.
Proof.
  intros (before & after & -> & Hc & _)%find_col_Some. split; [|done].
  apply elem_of_app. right. by left.
Qed.

Lemma normalise_synthetic (sd : option date) (dp : option string) (w : world) :
  normalise_crw None sd dp w = (Ok (demo_crw (today w)), w).
Proof. done. Qed.

Lemma normalise_opened (p : string) (sd : option date) (dp : option string)
    (w : world) (t : DataFrame) :
  p ≠ "" → fs w !! p = Some (NetCDF t) →
  normalise_crw (Some p) sd dp w =
  match _find_col t sst_candidates with
  | None => raise (RuntimeError "Could not find SST variable in NOAA SST dataset")
  | Some sst_col =>
      df_sst <- lift (Frame.select ["lat"; "lon"; sst_col] t) ;;
      d <- match sd with Some d => ret d | None => date_today end ;;
      let df_sst :=
        Frame.assign_scalar "date" (CDate d) (Frame.rename sst_col "sst" df_sst) in
      df_sst <- attach_dhw dp df_sst ;;
      if decide ("dhw" ∈ Frame.columns df_sst) then ret df_sst
      else ret (Frame.assign_scalar "dhw" (CFloat 0) df_sst)
  end (emit (Read p) (emit (Stat p) w)).
Proof.
  intros Hne Hf. unfold normalise_crw, unavailable.
  destruct (decide (p = "")) as [|_]; [done|].
  unfold bind at 1. unfold bind at 1. unfold path_exists.
  rewrite bool_decide_eq_true_2 by (by rewrite Hf). simpl.
  unfold bind at 1. unfold open_flat. simpl. by rewrite Hf.
Qed.

Lemma attach_dhw_unresolved (dp : option string) (df : DataFrame) (w : world) :
  dhw_unresolved dp w → (attach_dhw dp df w).1 = Ok df.
Proof.
  intros [->|(p & t & -> & Hf & Hc)]; [done|].
  unfold attach_dhw, unavailable.
  destruct (decide (p = "")) as [|_]; [done|].
  unfold bind at 1. unfold bind at 1. unfold path_exists.
  rewrite bool_decide_eq_true_2 by (by rewrite Hf). simpl.
  unfold bind at 1. unfold open_flat. simpl. rewrite Hf. by rewrite Hc.
Qed.

(** The table built from an SST file when no DHW column is merged in. *)
Lemma normalise_without_dhw (p : string) (sd : date) (dp : option string)
    (w : world) (t : DataFrame) (c : string) :
  p ≠ "" → fs w !! p = Some (NetCDF t) →
  _find_col t sst_candidates = Some c →
  "lat" ∈ Frame.columns t → "lon" ∈ Frame.columns t →
  dhw_unresolved dp w →
  ∃ la lo v,
    Frame.col "lat" t = Ok la ∧ Frame.col "lon" t = Ok lo ∧ Frame.col c t = Ok v ∧
    (normalise_crw (Some p) (Some sd) dp w).1 =
    Ok (mkDF (index t)
          [ ("lat", la); ("lon", lo); ("sst", v);
            ("date", replicate (length (index t)) (CDate sd));
            ("dhw", replicate (length (index t)) (CFloat 0)) ]).
Proof.
  intros Hne Hf Hc Hlat Hlon Hd.
  destruct (find_col_elem _ _ _ Hc) as [Hcand Hcol].
  destruct (assoc_is_Some "lat" (data t) Hlat) as [la Hla].
  destruct (assoc_is_Some "lon" (data t) Hlon) as [lo Hlo].
  destruct (assoc_is_Some c (data t) Hcol) as [v Hv].
  exists la, lo, v. unfold Frame.col. rewrite Hla, Hlo, Hv. split_and!; try done.
  rewrite (normalise_opened p (Some sd) dp w t Hne Hf), Hc.
  unfold bind at 1. unfold lift, Frame.select. simpl. rewrite Hla, Hlo, Hv. simpl.
  unfold bind at 1. simpl. unfold bind at 1.
  pose proof (attach_dhw_unresolved dp
    (Frame.assign_scalar "date" (CDate sd)
       (Frame.rename c "sst" (mkDF (index t) [("lat", la); ("lon", lo); (c, v)])))
    (emit (Read p) (emit (Stat p) w))) as Ha.
  destruct (attach_dhw dp _ _) as [r w']. simpl in Ha. rewrite Ha by done.
  unfold sst_candidates in Hcand. rewrite !elem_of_cons, elem_of_nil in Hcand.
  destruct Hcand as [->|[->|[->|[]]]]; reflexivity.
Qed.

Lemma fetch_crw_steps (w w1 w2 : world) (sp dp : option string) (sd dd : option date) :
  locate_sst w = (Ok (sp, sd), w1) →
  locate_dhw w1 = (Ok (dp, dd), w2) →
  fetch_noaa_crw w = normalise_crw sp sd dp w2.
Proof.
  intros H1 H2. unfold fetch_noaa_crw. unfold bind at 1. rewrite H1.
  unfold bind at 1. by rewrite H2.
Qed.

Lemma located_sst_path (w w1 : world) (p : string) (sd : option date) :
  locate_sst w = (Ok (Some p, sd), w1) →
  p ≠ "" ∧ ∃ d, sd = Some d.
Proof.
  intros H. destruct (locate_sst_shape w) as (r & w' & E & _ & _ & _ & Hr).
  rewrite H in E. injection E as <- <-.
  destruct Hr as [[=]|(d & _ & [= -> ->] & _)].
  split; [apply path_of_nonempty|by eexists].
Qed.

Lemma located_dhw_keeps (w1 w2 : world) (r : option string * option date)
    (p : string) (c : payload) :
  locate_dhw w1 = (Ok r, w2) → fs w1 !! p = Some c → fs w2 !! p = Some c.
Proof.
  intros H Hp. destruct (locate_dhw_shape w1) as (r' & w' & E & Hs & _).
  rewrite H in E. injection E as <- <-.
  by eapply lookup_weaken.
Qed.



(** C1, as the code has it.  When no SST file is located, [fetch_noaa_crw]
    returns the fixed three-row table, whose sst and dhw cells are all
    non-null and whose dhw values are 0.5, 0.6, 0.7.  When an SST file is
    located, readable and resolvable while the DHW signal is absent or its
    variable does not resolve, the returned table keeps the file's rows, its
    sst column is the file's SST variable as it stands, and dhw is 0.0 (hence
    non-null) on every row. *)
Theorem crw_dhw_column (w w1 w2 : world) (sp dp : option string) (sd dd : option date) :
  locate_sst w = (Ok (sp, sd), w1) →
  locate_dhw w1 = (Ok (dp, dd), w2) →
  (sp = None →
     ∃ df sst dhw,
       (fetch_noaa_crw w).1 = Ok df ∧ df = demo_crw (today w) ∧
       Frame.col "sst" df = Ok sst ∧ Forall (λ c, notna c = true) sst ∧
       Frame.col "dhw" df = Ok dhw ∧ Forall (λ c, notna c = true) dhw ∧
       dhw = [CFloat 0.5; CFloat 0.6; CFloat 0.7]) ∧
  (∀ p t c,
     sp = Some p → fs w1 !! p = Some (NetCDF t) →
     _find_col t ["sst"; "analysed_sst"; "sea_surface_temperature"] = Some c →
     "lat" ∈ Frame.columns t → "lon" ∈ Frame.columns t →
     dhw_unresolved dp w2 →
     ∃ df sst dhw,
       (fetch_noaa_crw w).1 = Ok df ∧ index df = index t ∧
       Frame.col "sst" df = Ok sst ∧ Frame.col c t = Ok sst ∧
       Frame.col "dhw" df = Ok dhw ∧ Forall (λ c, notna c = true) dhw ∧
       dhw = replicate (length (index df)) (CFloat 0)).
Proof.
  intros H1 H2. rewrite (fetch_crw_steps _ _ _ _ _ _ _ H1 H2). split.
  - intros ->. rewrite normalise_synthetic.
    destruct (locate_sst_shape w) as (r & w' & E & _ & _ & Ht1 & _).
    rewrite H1 in E. injection E as <- <-.
    destruct (locate_dhw_shape w1) as (r & w' & E & _ & _ & Ht2 & _).
    rewrite H2 in E. injection E as <- <-.
    rewrite Ht2, Ht1. eexists _, _, _. split_and!; try reflexivity.
    + repeat constructor.
    + repeat constructor.
  - intros p t c -> Hf Hc Hlat Hlon Hd.
    destruct (located_sst_path _ _ _ _ H1) as [Hne [d ->]].
    pose proof (located_dhw_keeps _ _ _ _ _ H2 Hf) as Hf2.
    destruct (normalise_without_dhw p d dp w2 t c Hne Hf2 Hc Hlat Hlon Hd)
      as (la & lo & v & _ & _ & Hv & ->).
    eexists _, v, _. split_and!; try done.
    apply Forall_replicate. reflexivity.
Qed.

Lemma crw_dhw_column_witness :
  (∃ df sst dhw,
     (fetch_noaa_crw Scenario.world_offline).1 = Ok df ∧
     df = demo_crw Scenario.a_day ∧
     Frame.col "sst" df = Ok sst ∧ Forall (λ c, notna c = true) sst ∧
     Frame.col "dhw" df = Ok dhw ∧ Forall (λ c, notna c = true) dhw ∧
     dhw = [CFloat 0.5; CFloat 0.6; CFloat 0.7]) ∧
  (∃ df sst dhw,
     (fetch_noaa_crw Scenario.world_sst_only).1 = Ok df ∧
     index df = index Scenario.sst_table ∧
     Frame.col "sst" df = Ok sst ∧ Frame.col "analysed_sst" Scenario.sst_table = Ok sst ∧
     Frame.col "dhw" df = Ok dhw ∧ Forall (λ c, notna c = true) dhw ∧
     dhw = replicate (length (index df)) (CFloat 0)).
Proof.
  split.
  - refine (proj1 (crw_dhw_column
      Scenario.world_offline
      (locate_sst Scenario.world_offline).2
      (locate_dhw (locate_sst Scenario.world_offline).2).2
      None None None None _ _) eq_refl).
    + vm_compute. reflexivity.
    + vm_compute. reflexivity.
  - refine (proj2 (crw_dhw_column
      Scenario.world_sst_only
      (locate_sst Scenario.world_sst_only).2
      (locate_dhw (locate_sst Scenario.world_sst_only).2).2
      (Some "NOAA_SST_20261104.nc") None (Some Scenario.a_day) None _ _)
      "NOAA_SST_20261104.nc" Scenario.sst_table "analysed_sst" eq_refl _ _ _ _ _).
    + vm_compute. reflexivity.
    + vm_compute. reflexivity.
    + vm_compute. reflexivity.
    + vm_compute. reflexivity.
    + unfold Frame.columns. simpl. rewrite !elem_of_cons. auto.
    + unfold Frame.columns. simpl. rewrite !elem_of_cons. auto.
    + by left.
Defined.

(** C1 as stated fails.  With nothing cached and no server reachable both
    signals are absent, a table is returned, and its dhw values are 0.5, 0.6,
    0.7 rather than 0.0.  With both files present, a null SST value in the
    file stays null in the table, and a grid point the DHW file does not cover
    gets a null dhw. *)
Lemma crw_dhw_not_always_zero_nor_non_null :
  ((locate_sst Scenario.world_offline).1 = Ok (None, None) ∧
   (locate_dhw (locate_sst Scenario.world_offline).2).1 = Ok (None, None) ∧
   ∃ df dhw,
     (fetch_noaa_crw Scenario.world_offline).1 = Ok df ∧
     Frame.col "dhw" df = Ok dhw ∧
     dhw = [CFloat 0.5; CFloat 0.6; CFloat 0.7] ∧
     dhw ≠ replicate (length (index df)) (CFloat 0)) ∧
  (∃ df sst dhw,
     (fetch_noaa_crw Scenario.world_sst_dhw).1 = Ok df ∧
     Frame.col "sst" df = Ok sst ∧ Frame.col "dhw" df = Ok dhw ∧
     notna <$> sst = [true; false] ∧ notna <$> dhw = [true; false]).
Proof.
  split.
  - split_and!; [by vm_compute|by vm_compute|].
    eexists _, _. split_and!; [by vm_compute|by vm_compute|reflexivity|].
    simpl. intros H. apply (f_equal (λ l, all_zero l)) in H. by vm_compute in H.
  - eexists _, _, _. split_and!; by vm_compute.
Qed.

(** ** The pH normaliser *)

(** The world after the optional pH download: it never raises. *)
Lemma download_ph_cases (w : world) :
  download_ph w =
  (Ok tt,
   if decide (ph_url_of w = "") then w
   else
     let w1 := emit (Stat ph_path) w in
     match fs w !! ph_path with
     | Some _ => w1
     | None =>
         let rq := mkReq (ph_url_of w) 30 in
         match net w (trace w1) rq with
         | Response status content =>
             if is_http_error status then emit (Get rq) w1
             else store ph_path content (emit (Get rq) w1)
         | Failure _ => emit (Get rq) w1
         end
     end).
Proof.
  unfold download_ph, ph_url_of, bind, getenv.
  destruct (decide (default "" (environ w !! "NOAA_PH_URL") = "")) as [Hu|Hu]; [done|].
  unfold path_exists. destruct (fs w !! ph_path) as [c|] eqn:Hf.
  - by rewrite bool_decide_eq_true_2.
  - rewrite bool_decide_eq_false_2 by (by intros [? ?]). simpl.
    unfold try_except, requests_get. simpl.
    destruct (net w _ _) as [status content|e]; [|done].
    unfold raise_for_status.
    by destruct (is_http_error status).
Qed.


Lemma read_ph_present (w : world) (c : payload) :
  fs w !! ph_path = Some c →
  read_ph w =
  (match c with
   | NetCDF t =>
       match Frame.select ["lat"; "lon"; "ph"] t with
       | Ok sel => Ok (Frame.assign_scalar "date" (CDate (today w)) sel)
       | Raise e => Raise e
       end
   | NotADataset => Raise (OSError ph_path)
   end,
   emit (Read ph_path) (emit (Stat ph_path) w)).
Proof.
  intros Hf. unfold read_ph, bind, path_exists.
  rewrite bool_decide_eq_true_2 by (by rewrite Hf). simpl.
  unfold open_flat. simpl. rewrite Hf. destruct c as [t|]; [|done].
  unfold lift. by destruct (Frame.select _ t).
Qed.

Lemma fetch_ph_steps (w : world) :
  fetch_noaa_ph w = read_ph (download_ph w).2.
Proof. unfold fetch_noaa_ph, bind. by rewrite download_ph_cases. Qed.

Lemma assoc_None {A} (c : string) (l : list (string * A)) :
  c ∉ l.*1 → Frame.assoc c l = None.
Proof.
  induction l as [|[k v] l IH]; simpl; [done|].
  intros Hn. destruct (decide (k = c)) as [->|Hne].
  - exfalso. apply Hn. by left.
  - apply IH. intros Hin. apply Hn. by right.
Qed.


Lemma select_ph_missing (t : DataFrame) :
  "lat" ∉ Frame.columns t ∨ "lon" ∉ Frame.columns t ∨ "ph" ∉ Frame.columns t →
  ∃ k, Frame.select ["lat"; "lon"; "ph"] t = Raise (KeyError k) ∧
       k ∈ ["lat"; "lon"; "ph"] ∧ k ∉ Frame.columns t.
Proof.
  intros Hm. unfold Frame.select. simpl.
  destruct (decide ("lat" ∈ Frame.columns t)) as [H1|H1].
  2:{ exists "lat". rewrite (assoc_None _ _ H1). split_and!; [done|by left|done]. }
  destruct (assoc_is_Some _ _ H1) as [la ->].
  destruct (decide ("lon" ∈ Frame.columns t)) as [H2|H2].
  2:{ exists "lon". rewrite (assoc_None _ _ H2). split_and!; [done|right; by left|done]. }
  destruct (assoc_is_Some _ _ H2) as [lo ->].
  destruct (decide ("ph" ∈ Frame.columns t)) as [H3|H3].
  2:{ exists "ph". rewrite (assoc_None _ _ H3).
      split_and!; [done|right; right; by left|done]. }
  exfalso. tauto.
Qed.


Example fetch_ph_examples :
  (fetch_noaa_ph Scenario.world_offline).1 = Ok (demo_ph Scenario.a_day) ∧
  (fetch_noaa_ph Scenario.world_ph_unavailable).1 = Ok (demo_ph Scenario.a_day) ∧
  (fetch_noaa_ph Scenario.world_ph_cached).1
  = Ok (mkDF [0; 1]
          [ ("lat", [CFloat 6.5; CFloat 6.6]);
            ("lon", [CFloat 92.5; CFloat 92.6]);
            ("ph", [CFloat 8.05; CFloat nan]);
            ("date", [CDate Scenario.a_day; CDate Scenario.a_day]) ]) ∧
  (fetch_noaa_ph Scenario.world_ph_served).1
  = (fetch_noaa_ph Scenario.world_ph_cached).1 ∧
  gets_of (trace (fetch_noaa_ph Scenario.world_ph_cached).2) = [].
Proof. split_and!; by vm_compute. Qed.

(** C9. A pH file that is on disk but whose flattened table lacks lat, lon
    or ph makes [fetch_noaa_ph] raise a KeyError naming an absent column; the
    synthetic table is not substituted. *)
Theorem ph_drift_is_fatal (w : world) (t : DataFrame) :
  fs w !! ph_path = Some (NetCDF t) →
  "lat" ∉ Frame.columns t ∨ "lon" ∉ Frame.columns t ∨ "ph" ∉ Frame.columns t →
  ∃ k, (fetch_noaa_ph w).1 = Raise (KeyError k) ∧
       k ∈ ["lat"; "lon"; "ph"] ∧ (k ∉ Frame.columns t) ∧
       ((fetch_noaa_ph w).1 ≠ Ok (demo_ph (today w))).
Proof.
  intros Hf Hm. destruct (select_ph_missing t Hm) as (k & Hsel & Hk & Hnk).
  exists k. rewrite fetch_ph_steps, download_ph_cases. simpl. rewrite Hf.
  destruct (decide (ph_url_of w = ""));
    rewrite (read_ph_present _ (NetCDF t)) by done; simpl; by rewrite Hsel.
Qed.

Lemma ph_drift_is_fatal_witness :
  ∃ k, (fetch_noaa_ph Scenario.world_ph_drift).1 = Raise (KeyError k) ∧
       k ∈ ["lat"; "lon"; "ph"] ∧ (k ∉ Frame.columns Scenario.ph_table_drifted) ∧
       ((fetch_noaa_ph Scenario.world_ph_drift).1
        ≠ Ok (demo_ph (today Scenario.world_ph_drift))).
Proof.
  apply (ph_drift_is_fatal Scenario.world_ph_drift Scenario.ph_table_drifted).
  - vm_compute. reflexivity.
  - right. right. unfold Frame.columns. simpl.
    rewrite !elem_of_cons, elem_of_nil. intros [?|[?|[?|[]]]]; discriminate.
Defined.

(** ** The orchestrator: sampling *)


Section Sampling.

Variable choice : Z → nat → nat → list nat.

(** The library's contract for drawing without replacement. *)
Hypothesis choice_draws :
  ∀ (seed : Z) (population n : nat),
    (n ≤ population)%nat →
    length (choice seed population n) = n ∧
    NoDup (choice seed population n) ∧
    Forall (λ i, (i < population)%nat) (choice seed population n).


End Sampling.



Example sample_stage_small_cap :
  (sample_stage Scenario.first_positions true 2 Scenario.sst_table_drifted Scenario.world_offline).1
  = Ok Scenario.sst_table_drifted ∧
  (sample_stage Scenario.first_positions true 1 Scenario.sst_table_drifted Scenario.world_offline).1
  = Ok (mkDF [0] [("lat", [CFloat 6.5]); ("lon", [CFloat 92.5]); ("temperature", [CFloat 28.2])]) ∧
  (sample_stage Scenario.first_positions false 1 Scenario.sst_table_drifted Scenario.world_offline).1
  = Ok Scenario.sst_table_drifted.
Proof. split_and!; by vm_compute. Qed.

(** ** The orchestrator: forecasting *)

Lemma assoc_put_eq {A} (c : string) (v : A) (l : list (string * A)) :
  Frame.assoc c (Frame.put c v l) = Some v.
Proof.
  induction l as [|[k x] l IH]; simpl.
  - by rewrite decide_True.
  - destruct (decide (k = c)) as [->|Hne]; simpl.
    + by rewrite decide_True.
    + by rewrite decide_False.
Qed.

Lemma assoc_put_ne {A} (c c' : string) (v : A) (l : list (string * A)) :
  c ≠ c' → Frame.assoc c' (Frame.put c v l) = Frame.assoc c' l.
Proof.
  intros Hne. induction l as [|[k x] l IH]; simpl.
  - by rewrite decide_False.
  - destruct (decide (k = c)) as [->|Hk]; simpl.
    + by rewrite !decide_False.
    + destruct (decide (k = c')); [done|apply IH].
Qed.

Lemma blank_keeps_ph (merged : DataFrame) :
  Frame.col "ph" (Frame.assign_scalar "forecast_ph" CNone merged) = Frame.col "ph" merged.
Proof. unfold Frame.col, Frame.assign_scalar. simpl. by rewrite assoc_put_ne. Qed.




Section Forecast.

Variable LstmModel : Type.
Variable train_lstm : list cell → M LstmModel.
Variable forecast_lstm : LstmModel → list cell → Z → M (list float).





End Forecast.



Example forecast_failure_is_contained :
  forecast_stage unit Scenario.failing_train Scenario.flat_forecast false
    Scenario.thirty_rows_unique Scenario.world_offline
  = (Ok (Frame.assign_scalar "forecast_ph" CNone Scenario.thirty_rows_unique),
     mkWorld ∅ Scenario.a_day Scenario.offline ∅ []
       ["LSTM forecast skipped: training diverged"]).
Proof. by vm_compute. Qed.

(** ** The orchestrator: the fast-mode constant *)

Lemma row_forecast_ph (d : list (string * list cell)) (i : nat) (c : list cell) :
  Frame.assoc "forecast_ph" d = Some c →
  Frame.assoc "forecast_ph" (Frame.row d i) = Some (default CNone (c !! i)).
Proof.
  induction d as [|[k v] d IH]; simpl; [done|].
  destruct (decide (k = "forecast_ph")); [by intros [= ->]|done].
Qed.

Lemma rename_keeps_forecast_ph (old new : string) (df : DataFrame) :
  old ≠ "forecast_ph" → new ≠ "forecast_ph" →
  Frame.assoc "forecast_ph" (data (Frame.rename old new df))
  = Frame.assoc "forecast_ph" (data df).
Proof.
  intros Ho Hn. unfold Frame.rename. simpl.
  induction (data df) as [|[k v] d IH]; simpl; [done|].
  destruct (decide (k = old)) as [->|Hk].
  - by rewrite !decide_False.
  - destruct (decide (k = "forecast_ph")); [done|apply IH].
Qed.

Lemma pick_assoc (cs : list string) (d r : list (string * list cell)) (c : string) :
  Frame.pick cs d = Ok r → c ∈ cs → Frame.assoc c r = Frame.assoc c d.
Proof.
  revert r. induction cs as [|c0 cs IH]; intros r; simpl.
  - by intros _ ?%elem_of_nil.
  - destruct (Frame.assoc c0 d) as [v|] eqn:Hv; [|done].
    destruct (Frame.pick cs d) as [r'|e]; [|done].
    intros [= <-] Hc. simpl. destruct (decide (c0 = c)) as [->|Hne]; [done|].
    apply IH; [done|]. apply elem_of_cons in Hc as [?|?]; [congruence|done].
Qed.

(** Every record built from a table whose forecast_ph column is all null has
    a null forecast_ph field. *)
Lemma records_forecast_null (merged : DataFrame)
    (records : list (list (string * cell))) :
  to_records (Frame.assign_scalar "forecast_ph" CNone merged) = Ok records →
  Forall (λ r, Frame.assoc "forecast_ph" r = Some CNone) records.
Proof.
  unfold to_records, Frame.select.
  destruct (Frame.pick _ _) as [d|e] eqn:Hpick; [|done].
  intros [= <-]. unfold Frame.records. apply Forall_forall. intros r Hr.
  apply list_elem_of_fmap in Hr as (i & -> & _).
  assert (Frame.assoc "forecast_ph" d
          = Some (replicate (length (index merged)) CNone)) as Hd.
  { rewrite (pick_assoc _ _ _ "forecast_ph" Hpick).
    - unfold Frame.assign_scalar. simpl. apply assoc_put_eq.
    - unfold persisted_columns. rewrite !elem_of_cons. auto 10. }
  erewrite row_forecast_ph.
  2:{ rewrite !rename_keeps_forecast_ph by done. simpl. exact Hd. }
  f_equal. destruct (replicate _ _ !! i) as [c|] eqn:Hc; [|done].
  simpl. by apply lookup_replicate in Hc as [-> _].
Qed.

Section FastMode.

Variables GeoDataFrame LstmModel : Type.
Variable fetch_allen_coral_atlas : DataFrame → M GeoDataFrame.
Variable clean_noaa : DataFrame → M DataFrame.
Variable clean_allen : GeoDataFrame → M GeoDataFrame.
Variable integrate_ph : DataFrame → DataFrame → M DataFrame.
Variable spatial_merge : DataFrame → GeoDataFrame → M DataFrame.
Variable health_score : list (string * cell) → M cell.
Variable detect_anomaly : list cell → M (list cell).
Variable train_lstm : list cell → M LstmModel.
Variable forecast_lstm : LstmModel → list cell → Z → M (list float).
Variable db_init_db : M unit.
Variable db_insert : list (list (string * cell)) → M unit.
Variable choice : Z → nat → nat → list nat.

(** C10. [FAST_MODE] is the constant True.  Hence, whatever the world
    (environment variables included) and whatever the forecasting functions:
    the forecast stage returns the table with an all-null forecast_ph column
    without touching the world; the daily run is the same function of the
    world for any two forecasters, so they are never consulted; every record
    handed to the insert has forecast_ph null; and a merged table of more than
    5000 rows always goes through the 5000-row sampler. *)
Theorem fast_mode_is_constant :
  FAST_MODE = true ∧
  (∀ merged w,
     forecast_stage LstmModel train_lstm forecast_lstm FAST_MODE merged w
     = (Ok (Frame.assign_scalar "forecast_ph" CNone merged), w)) ∧
  (∀ (LstmModel' : Type) (train_lstm' : list cell → M LstmModel')
     (forecast_lstm' : LstmModel' → list cell → Z → M (list float)) w,
     run_daily_pipeline GeoDataFrame LstmModel fetch_allen_coral_atlas clean_noaa
       clean_allen integrate_ph spatial_merge health_score detect_anomaly
       train_lstm forecast_lstm db_init_db db_insert choice w
     = run_daily_pipeline GeoDataFrame LstmModel' fetch_allen_coral_atlas clean_noaa
         clean_allen integrate_ph spatial_merge health_score detect_anomaly
         train_lstm' forecast_lstm' db_init_db db_insert choice w) ∧
  (∀ w,
     run_daily_pipeline GeoDataFrame LstmModel fetch_allen_coral_atlas clean_noaa
       clean_allen integrate_ph spatial_merge health_score detect_anomaly
       train_lstm forecast_lstm db_init_db db_insert choice w
     = (merged <- build_merged GeoDataFrame fetch_allen_coral_atlas clean_noaa
                    clean_allen integrate_ph spatial_merge ;;
        merged <- sample_stage choice true 5000 merged ;;
        merged <- score_stage health_score detect_anomaly merged ;;
        persist db_init_db db_insert
          (Frame.assign_scalar "forecast_ph" CNone merged)) w) ∧
  (∀ merged records,
     to_records (Frame.assign_scalar "forecast_ph" CNone merged) = Ok records →
     Forall (λ r, Frame.assoc "forecast_ph" r = Some CNone) records) ∧
  (∀ merged w,
     5000 < Frame.len merged →
     sample_stage choice FAST_MODE MAX_ROWS_FAST merged w
     = (Ok (Frame.take (choice 42 (length (index merged)) (Z.to_nat 5000)) merged), w)).
Proof.
  split_and!.
  - done.
  - done.
  - done.
  - done.
  - apply records_forecast_null.
  - intros merged w Hbig. unfold sample_stage, FAST_MODE, MAX_ROWS_FAST, sample, lift.
    cbn [andb]. rewrite (proj2 (Z.ltb_lt _ _)) by done.
    rewrite (proj2 (Z.leb_le 5000 _)) by lia. done.
Qed.

End FastMode.

(** * Further properties *)

Import Footprint.

(** ** The date window *)


(** ** The caching fetcher, repeated *)

(** X2. Once [_download] has answered True for a path, any later call for
    that path, whatever the url, answers True after the existence check alone:
    no request is issued and no file is written. *)
Theorem download_idempotent (url url' path : string) (w : world) :
  (_download url path w).1 = Ok true →
  _download url' path (_download url path w).2
  = (Ok true, emit (Stat path) (_download url path w).2).
Proof.
  intros Hok. apply download_cached. by apply download_true_exists.
Qed.

Lemma download_idempotent_witness :
  _download "https://host/other.nc" "NOAA_SST_20261103.nc"
    (_download "https://host/sst/2026/coraltemp_v3.1_20261103.nc"
       "NOAA_SST_20261103.nc" Scenario.world_yesterday).2
  = (Ok true,
     emit (Stat "NOAA_SST_20261103.nc")
       (_download "https://host/sst/2026/coraltemp_v3.1_20261103.nc"
          "NOAA_SST_20261103.nc" Scenario.world_yesterday).2).
Proof.
  apply (download_idempotent "https://host/sst/2026/coraltemp_v3.1_20261103.nc"
           "https://host/other.nc" "NOAA_SST_20261103.nc" Scenario.world_yesterday).
  vm_compute. reflexivity.
Defined.

(** ** What a locator run writes *)

Lemma download_world (u p : string) (w : world) :
  net (_download u p w).2 = net w ∧ stdout (_download u p w).2 = stdout w.
Proof.
  destruct (fs w !! p) as [c|] eqn:Hp.
  - by rewrite download_cached by (by rewrite Hp).
  - rewrite download_uncached by done. simpl.
    by destruct (net w _ _) as [status body|e]; [destruct (decide (status = 200))|].
Qed.

Lemma download_files (u p : string) (w : world) :
  (fs (_download u p w).2 = fs w) ∨
  (fs w !! p = None ∧ (_download u p w).1 = Ok true ∧
   ∃ c, fs (_download u p w).2 = <[p := c]> (fs w)).
Proof.
  destruct (fs w !! p) as [c|] eqn:Hp.
  - left. by rewrite download_cached by (by rewrite Hp).
  - rewrite download_uncached by done. simpl.
    destruct (net w _ _) as [status body|e]; [destruct (decide (status = 200))|];
      simpl; [right|by left|by left].
    split_and!; [done|done|by eexists].
Qed.

Lemma download_false_files (u p : string) (w : world) :
  (_download u p w).1 ≠ Ok true → fs (_download u p w).2 = fs w.
Proof. intros Hn. by destruct (download_files u p w) as [?|(_ & ? & _)]. Qed.

Lemma probe_files (base_url fname_tmpl prefix : string) (ds : list date) :
  ∀ w : world,
    at_most_one_new (λ p, ∃ d, d ∈ ds ∧ p = path_of prefix d)
      w (probe base_url fname_tmpl prefix ds w).2 ∧
    ((probe base_url fname_tmpl prefix ds w).1 = Ok (None, None) →
     fs (probe base_url fname_tmpl prefix ds w).2 = fs w) ∧
    net (probe base_url fname_tmpl prefix ds w).2 = net w ∧
    stdout (probe base_url fname_tmpl prefix ds w).2 = stdout w.
Proof.
  induction ds as [|d ds IH]; intros w.
  - split_and!; try done. by left.
  - rewrite probe_cons. unfold acquired, after_probes. simpl.
    pose proof (download_files (url_of base_url fname_tmpl d) (path_of prefix d) w) as Hf.
    pose proof (download_false_files (url_of base_url fname_tmpl d) (path_of prefix d) w) as Hff.
    pose proof (download_world (url_of base_url fname_tmpl d) (path_of prefix d) w) as [Hn Hs].
    destruct (_download _ _ w) as [r w1]. simpl in *.
    assert (r ≠ Ok true →
            at_most_one_new (λ p, ∃ d0, d0 ∈ d :: ds ∧ p = path_of prefix d0)
              w (probe base_url fname_tmpl prefix ds w1).2 ∧
            ((probe base_url fname_tmpl prefix ds w1).1 = Ok (None, None) →
             fs (probe base_url fname_tmpl prefix ds w1).2 = fs w) ∧
            net (probe base_url fname_tmpl prefix ds w1).2 = net w ∧
            stdout (probe base_url fname_tmpl prefix ds w1).2 = stdout w) as Hrest.
    { intros Hr. specialize (Hff Hr). destruct (IH w1) as (Hone & Hnone & Hn' & Hs').
      split_and!; [|by rewrite <- Hff|congruence|congruence].
      destruct Hone as [E|(p & c & (d0 & Hd0 & ->) & Hp & E)].
      - left. congruence.
      - right. exists (path_of prefix d0), c. rewrite <- Hff.
        split_and!; [|done|done]. exists d0. split; [by right|done]. }
    destruct r as [[|]|e]; [|by apply Hrest|by apply Hrest].
    simpl. split_and!; [|done|done|done].
    destruct Hf as [E|(Hp & _ & c & E)]; [by left|].
    right. exists (path_of prefix d), c. split_and!; [|done|done].
    exists d. split; [by left|done].
Qed.

(** X3. One run of [_download_latest] leaves every existing file as it was
    and creates at most one new file, at the cache path of a window date that
    had no file; when it returns (None, None) it has created none.  It does
    not print and does not change the environment or the clock. *)
Theorem download_latest_creates_one (base_url fname_tmpl prefix : string) (w : world) :
  at_most_one_new (λ p, ∃ d, d ∈ window w ∧ p = path_of prefix d)
    w (_download_latest base_url fname_tmpl prefix w).2 ∧
  fs w ⊆ fs (_download_latest base_url fname_tmpl prefix w).2 ∧
  ((_download_latest base_url fname_tmpl prefix w).1 = Ok (None, None) →
   fs (_download_latest base_url fname_tmpl prefix w).2 = fs w) ∧
  stdout (_download_latest base_url fname_tmpl prefix w).2 = stdout w ∧
  environ (_download_latest base_url fname_tmpl prefix w).2 = environ w ∧
  today (_download_latest base_url fname_tmpl prefix w).2 = today w.
Proof.
  rewrite download_latest_probe.
  destruct (probe_files base_url fname_tmpl prefix (window w) w) as (Hone & Hnone & _ & Hs).
  destruct (probe_shape base_url fname_tmpl prefix (window w) w)
    as (r & w' & E & Hsub & He & Ht & _).
  rewrite E in *. simpl in *. by split_and!.
Qed.



(** ** Footprint of the SST and DHW normaliser *)

Lemma only_looked_refl (w : world) : only_looked w w.
Proof. by repeat split. Qed.

Lemma only_looked_trans (w1 w2 w3 : world) :
  only_looked w1 w2 → only_looked w2 w3 → only_looked w1 w3.
Proof.
  intros (?&?&?&?&?&?) (?&?&?&?&?&?). repeat split; congruence.
Qed.

Lemma only_looked_emit_stat (w : world) (p : string) : only_looked w (emit (Stat p) w).
Proof.
  repeat split. simpl. rewrite gets_of_app. simpl. by rewrite app_nil_r.
Qed.

Lemma only_looked_emit_read (w : world) (p : string) : only_looked w (emit (Read p) w).
Proof.
  repeat split. simpl. rewrite gets_of_app. simpl. by rewrite app_nil_r.
Qed.

Lemma looks_only_ret {A} (a : A) : looks_only (ret a).
Proof. intros w. apply only_looked_refl. Qed.

Lemma looks_only_raise {A} (e : exn) : looks_only (@raise A e).
Proof. intros w. apply only_looked_refl. Qed.

Lemma looks_only_lift {A} (r : result A) : looks_only (lift r).
Proof. intros w. apply only_looked_refl. Qed.

Lemma looks_only_today : looks_only date_today.
Proof. intros w. apply only_looked_refl. Qed.

Lemma looks_only_exists (p : string) : looks_only (path_exists p).
Proof. intros w. apply only_looked_emit_stat. Qed.

Lemma looks_only_open (p : string) : looks_only (open_flat p).
Proof.
  intros w. unfold open_flat.
  destruct (fs w !! p) as [[t|]|]; apply only_looked_emit_read.
Qed.

Lemma looks_only_bind {A B} (m : M A) (k : A → M B) :
  looks_only m → (∀ a, looks_only (k a)) → looks_only (bind m k).
Proof.
  intros Hm Hk w. unfold bind. specialize (Hm w).
  destruct (m w) as [[a|e] w1]; simpl in *; [|done].
  eapply only_looked_trans; [done|apply Hk].
Qed.

Create HintDb looks.

#[local] Hint Resolve looks_only_ret looks_only_raise looks_only_lift looks_only_today
  looks_only_exists looks_only_open : looks.

Lemma looks_only_unavailable (p : option string) : looks_only (unavailable p).
Proof.
  destruct p as [s|]; simpl; [|auto with looks].
  destruct (decide (s = "")); [auto with looks|].
  apply looks_only_bind; auto with looks.
Qed.

Lemma looks_only_attach_dhw (dp : option string) (df : DataFrame) :
  looks_only (attach_dhw dp df).
Proof.
  unfold attach_dhw. apply looks_only_bind; [apply looks_only_unavailable|].
  intros [|]; [auto with looks|].
  apply looks_only_bind; [auto with looks|]. intros t.
  destruct (_find_col t dhw_candidates); [|auto with looks].
  apply looks_only_bind; auto with looks.
Qed.

Lemma looks_only_normalise (sp : option string) (sd : option date) (dp : option string) :
  looks_only (normalise_crw sp sd dp).
Proof.
  unfold normalise_crw. apply looks_only_bind; [apply looks_only_unavailable|].
  intros [|].
  { apply looks_only_bind; auto with looks. }
  apply looks_only_bind; [auto with looks|]. intros t.
  destruct (_find_col t sst_candidates); [|auto with looks].
  apply looks_only_bind; [auto with looks|]. intros sel.
  apply looks_only_bind; [destruct sd; auto with looks|]. intros d.
  apply looks_only_bind; [apply looks_only_attach_dhw|]. intros df.
  destruct (decide ("dhw" ∈ Frame.columns df)); auto with looks.
Qed.

Lemma probe_gets (base_url fname_tmpl prefix : string) (ds : list date) (w : world) :
  ∃ l,
    gets_of (trace (probe base_url fname_tmpl prefix ds w).2) = gets_of (trace w) ++ l ∧
    l `sublist_of` ((λ d, mkReq (url_of base_url fname_tmpl d) 60) <$> ds).
Proof.
  destruct (probe_stops_in_list base_url fname_tmpl prefix ds w) as (n & r & _ & ->).
  destruct (after_gets base_url fname_tmpl prefix (take n ds) w) as (l & E & Hl).
  exists l. split; [done|]. etrans; [done|].
  apply fmap_sublist, sublist_take.
Qed.

Lemma locate_sst_probe (w : world) :
  locate_sst w
  = probe (read_in SST_BASE w) "coraltemp_v3.1_{date}.nc" "NOAA_SST" (window w) w.
Proof. done. Qed.

Lemma locate_dhw_probe (w : world) :
  locate_dhw w
  = probe (read_in DHW_BASE w) "ct5km_dhw_v3.1_{date}.nc" "NOAA_DHW" (window w) w.
Proof. done. Qed.

Lemma at_most_one_new_lookup (P : string → Prop) (w w' : world) (p : string) :
  at_most_one_new P w w' → fs w !! p = None → is_Some (fs w' !! p) → P p.
Proof.
  intros [E|(q & c & HP & Hq & E)] Hn Hs; rewrite E in Hs.
  - rewrite Hn in Hs. by destruct Hs.
  - destruct (decide (q = p)) as [<-|Hne]; [done|].
    rewrite lookup_insert_ne, Hn in Hs by done. by destruct Hs.
Qed.

(** X5. Whatever it returns or raises, [fetch_noaa_crw] keeps every existing
    file unchanged, creates files only at the SST and DHW cache paths of the
    three window dates, issues at most six requests (first SST, then DHW; each
    to a window date's URL under the configured base, each at most once, in
    most-recent-first order, all with timeout 60), prints nothing and leaves
    the environment and the clock alone. *)
Theorem fetch_crw_footprint (w : world) :
  fs w ⊆ fs (fetch_noaa_crw w).2 ∧
  (∀ p, fs w !! p = None → is_Some (fs (fetch_noaa_crw w).2 !! p) →
        ∃ d, d ∈ window w ∧ (p = path_of "NOAA_SST" d ∨ p = path_of "NOAA_DHW" d)) ∧
  (∃ l1 l2,
     gets_of (trace (fetch_noaa_crw w).2) = gets_of (trace w) ++ l1 ++ l2 ∧
     l1 `sublist_of`
       ((λ d, mkReq (url_of (read_in SST_BASE w) "coraltemp_v3.1_{date}.nc" d) 60)
          <$> window w) ∧
     l2 `sublist_of`
       ((λ d, mkReq (url_of (read_in DHW_BASE w) "ct5km_dhw_v3.1_{date}.nc" d) 60)
          <$> window w) ∧
     (length l1 + length l2 ≤ 6)%nat) ∧
  stdout (fetch_noaa_crw w).2 = stdout w ∧
  environ (fetch_noaa_crw w).2 = environ w ∧
  today (fetch_noaa_crw w).2 = today w.
Proof.
  destruct (locate_sst_shape w) as ([sp sd] & w1 & E1 & Hsub1 & He1 & Ht1 & _).
  destruct (locate_dhw_shape w1) as ([dp dd] & w2 & E2 & Hsub2 & He2 & Ht2 & _).
  rewrite (fetch_crw_steps _ _ _ _ _ _ _ E1 E2).
  destruct (looks_only_normalise sp sd dp w2) as (He3 & Ht3 & _ & Hf3 & Hs3 & Hg3).
  pose proof (probe_files (read_in SST_BASE w) "coraltemp_v3.1_{date}.nc" "NOAA_SST"
                (window w) w) as (Hone1 & _ & _ & Hso1).
  rewrite <- locate_sst_probe, E1 in Hone1, Hso1. simpl in Hone1, Hso1.
  pose proof (probe_files (read_in DHW_BASE w1) "ct5km_dhw_v3.1_{date}.nc" "NOAA_DHW"
                (window w1) w1) as (Hone2 & _ & _ & Hso2).
  rewrite <- locate_dhw_probe, E2 in Hone2, Hso2. simpl in Hone2, Hso2.
  assert (window w1 = window w) as Hw by (unfold window; by rewrite Ht1).
  assert (read_in DHW_BASE w1 = read_in DHW_BASE w) as Hb
    by (unfold read_in, DHW_BASE, getenv; simpl; by rewrite He1).
  split_and!.
  - rewrite Hf3. by etrans.
  - intros p Hn Hs. rewrite Hf3 in Hs.
    destruct (fs w1 !! p) as [c|] eqn:Hp1.
    + destruct (at_most_one_new_lookup _ _ _ p Hone1 Hn) as (d & Hd & ->);
        [by rewrite Hp1|]. exists d. auto.
    + destruct (at_most_one_new_lookup _ _ _ p Hone2 Hp1 Hs) as (d & Hd & ->).
      exists d. rewrite <- Hw. auto.
  - destruct (probe_gets (read_in SST_BASE w) "coraltemp_v3.1_{date}.nc" "NOAA_SST"
                (window w) w) as (l1 & G1 & Hl1).
    rewrite <- locate_sst_probe, E1 in G1. simpl in G1.
    destruct (probe_gets (read_in DHW_BASE w1) "ct5km_dhw_v3.1_{date}.nc" "NOAA_DHW"
                (window w1) w1) as (l2 & G2 & Hl2).
    rewrite <- locate_dhw_probe, E2 in G2. simpl in G2.
    rewrite Hw, Hb in Hl2.
    exists l1, l2. split_and!; [|done|done|].
    + rewrite Hg3, G2, G1. by rewrite app_assoc.
    + apply sublist_length in Hl1, Hl2.
      rewrite length_fmap in Hl1, Hl2. unfold window in Hl1, Hl2. simpl in Hl1, Hl2. lia.
  - congruence.
  - congruence.
  - congruence.
Qed.

(** ** The normaliser with a located SST file *)

(** The SST table before the DHW step. *)
Lemma normalise_resolved (p : string) (d : date) (dp : option string) (w : world)
    (t : DataFrame) (c : string) (la lo v : list cell) :
  p ≠ "" → fs w !! p = Some (NetCDF t) →
  _find_col t sst_candidates = Some c →
  Frame.col "lat" t = Ok la → Frame.col "lon" t = Ok lo → Frame.col c t = Ok v →
  normalise_crw (Some p) (Some d) dp w =
  (df <- attach_dhw dp
           (mkDF (index t)
              [ ("lat", la); ("lon", lo); ("sst", v);
                ("date", replicate (length (index t)) (CDate d)) ]) ;;
   if decide ("dhw" ∈ Frame.columns df) then ret df
   else ret (Frame.assign_scalar "dhw" (CFloat 0) df))
    (emit (Read p) (emit (Stat p) w)).
Proof.
  intros Hne Hf Hc Hla Hlo Hv.
  destruct (find_col_elem _ _ _ Hc) as [Hcand _].
  unfold Frame.col in Hla, Hlo, Hv.
  destruct (Frame.assoc "lat" (data t)) as [la'|] eqn:Ela; [|done].
  destruct (Frame.assoc "lon" (data t)) as [lo'|] eqn:Elo; [|done].
  destruct (Frame.assoc c (data t)) as [v'|] eqn:Ev; [|done].
  injection Hla as ->. injection Hlo as ->. injection Hv as ->.
  rewrite (normalise_opened p (Some d) dp w t Hne Hf), Hc.
  unfold bind at 1. unfold lift, Frame.select. simpl. rewrite Ela, Elo, Ev. simpl.
  unfold bind at 1. simpl.
  unfold sst_candidates in Hcand. rewrite !elem_of_cons, elem_of_nil in Hcand.
  destruct Hcand as [->|[->|[->|[]]]]; reflexivity.
Qed.

Lemma attach_dhw_opened (p : string) (df : DataFrame) (w : world) (c : payload) :
  p ≠ "" → fs w !! p = Some c →
  attach_dhw (Some p) df w =
  (match c with
   | NetCDF t =>
       match _find_col t dhw_candidates with
       | Some dhw_col =>
           match Frame.select ["lat"; "lon"; dhw_col] t with
           | Ok sel => Ok (merge_left ["lat"; "lon"] df (Frame.rename dhw_col "dhw" sel))
           | Raise e => Raise e
           end
       | None => Ok df
       end
   | NotADataset => Raise (OSError p)
   end,
   emit (Read p) (emit (Stat p) w)).
Proof.
  intros Hne Hf. unfold attach_dhw, unavailable.
  destruct (decide (p = "")) as [|_]; [done|].
  unfold bind at 1. unfold bind at 1. unfold path_exists.
  rewrite bool_decide_eq_true_2 by (by rewrite Hf). simpl.
  unfold bind at 1. unfold open_flat. simpl. rewrite Hf.
  destruct c as [t|]; [|done].
  destruct (_find_col t dhw_candidates) as [c'|]; [|done].
  unfold bind, lift. by destruct (Frame.select _ t).
Qed.

(** Whatever the DHW step returns is the SST table itself or a left join
    onto it. *)
Lemma attach_dhw_result (dp : option string) (df df' : DataFrame) (w : world) :
  (attach_dhw dp df w).1 = Ok df' →
  df' = df ∨ ∃ r, df' = merge_left ["lat"; "lon"] df r.
Proof.
  destruct dp as [p|]; [|intros [= <-]; by left].
  destruct (decide (p = "")) as [->|Hne]; [intros [= <-]; by left|].
  destruct (fs w !! p) as [c|] eqn:Hf.
  - rewrite (attach_dhw_opened p df w c Hne Hf). simpl.
    destruct c as [t|]; [|done].
    destruct (_find_col t dhw_candidates) as [c'|]; [|intros [= <-]; by left].
    destruct (Frame.select _ t) as [sel|e]; [|done].
    intros [= <-]. right. by eexists.
  - unfold attach_dhw, unavailable. destruct (decide (p = "")); [done|].
    unfold bind at 1. unfold bind at 1. unfold path_exists.
    rewrite bool_decide_eq_false_2 by (rewrite Hf; by intros [? ?]). simpl.
    intros [= <-]. by left.
Qed.

(** *** Facts about the left join *)

Lemma join_plan_rows (on : list string) (l r : DataFrame) :
  Forall (λ q, (q.1 < length (index l))%nat) (join_plan on l r) ∧
  (∀ i, (i < length (index l))%nat → ∃ o, (i, o) ∈ join_plan on l r).
Proof.
  unfold join_plan. split.
  - apply Forall_forall. intros q Hq.
    apply list_elem_of_In, in_flat_map in Hq as (i & Hi & Hq).
    apply list_elem_of_In, elem_of_seq in Hi.
    destruct (filter _ _) as [|j js].
    + apply list_elem_of_In, list_elem_of_singleton in Hq as ->. simpl. lia.
    + apply list_elem_of_In, list_elem_of_fmap in Hq as (j' & -> & _). simpl. lia.
  - intros i Hi.
    destruct (filter (λ j, keys_eqb (key_at on (data l) i) (key_at on (data r) j) = true)
                (seq 0 (length (index r)))) as [|j js] eqn:Ef.
    + exists None. apply list_elem_of_In, in_flat_map. exists i. split.
      * apply list_elem_of_In, elem_of_seq. lia.
      * rewrite Ef. by left.
    + exists (Some j). apply list_elem_of_In, in_flat_map. exists i. split.
      * apply list_elem_of_In, elem_of_seq. lia.
      * rewrite Ef. by left.
Qed.

Lemma assoc_fmap_values {A B} (f : string → A → B) (c : string) (l : list (string * A)) :
  Frame.assoc c ((λ kv, (kv.1, f kv.1 kv.2)) <$> l) = f c <$> Frame.assoc c l.
Proof.
  induction l as [|[k x] l IH]; simpl; [done|].
  destruct (decide (k = c)) as [->|]; [done|apply IH].
Qed.

Lemma assoc_app_l {A} (c : string) (l1 l2 : list (string * A)) (x : A) :
  Frame.assoc c l1 = Some x → Frame.assoc c (l1 ++ l2) = Some x.
Proof.
  induction l1 as [|[k y] l1 IH]; simpl; [done|].
  destruct (decide (k = c)); [done|apply IH].
Qed.

(** A left column of the join holds, row by row, the left cell of the
    joined left row. *)
Lemma merge_left_column (on : list string) (l r : DataFrame) (c : string)
    (col : list cell) :
  Frame.assoc c (data l) = Some col →
  Frame.col c (merge_left on l r)
  = Ok ((λ q : nat * option nat, default CNone (col !! q.1)) <$> join_plan on l r).
Proof.
  intros Hc. unfold Frame.col, merge_left. simpl.
  erewrite assoc_app_l; [done|].
  rewrite (assoc_fmap_values
             (λ _ x, (λ q : nat * option nat, default CNone (x !! q.1)) <$> join_plan on l r)).
  by rewrite Hc.
Qed.

Lemma merge_left_len (on : list string) (l r : DataFrame) :
  length (index (merge_left on l r)) = length (join_plan on l r) ∧
  (length (index l) ≤ length (join_plan on l r))%nat.
Proof.
  split; [unfold merge_left; simpl; by rewrite length_fmap, length_seq|].
  destruct (join_plan_rows on l r) as [_ Hcov].
  assert (seq 0 (length (index l)) ⊆ (join_plan on l r).*1) as Hsub.
  { intros i Hi%elem_of_seq. destruct (Hcov i ltac:(lia)) as [o Ho].
    apply list_elem_of_fmap. by exists (i, o). }
  pose proof (NoDup_submseteq _ _ (NoDup_seq 0 (length (index l))) Hsub) as Hm.
  apply submseteq_length in Hm. by rewrite length_seq, length_fmap in Hm.
Qed.

Lemma normalise_unreadable (p : string) (sd : option date) (dp : option string)
    (w : world) :
  p ≠ "" → fs w !! p = Some NotADataset →
  (normalise_crw (Some p) sd dp w).1 = Raise (OSError p).
Proof.
  intros Hne Hf. unfold normalise_crw, unavailable.
  destruct (decide (p = "")) as [|_]; [done|].
  unfold bind at 1. unfold bind at 1. unfold path_exists.
  rewrite bool_decide_eq_true_2 by (by rewrite Hf). simpl.
  unfold bind at 1. unfold open_flat. simpl. by rewrite Hf.
Qed.

Lemma col_assign_other (c c' : string) (x : cell) (df : DataFrame) :
  c ≠ c' → Frame.col c' (Frame.assign_scalar c x df) = Frame.col c' df.
Proof. intros Hne. unfold Frame.col, Frame.assign_scalar. simpl. by rewrite assoc_put_ne. Qed.

(** A table returned for a located SST file, with the columns it was built
    from. *)
Lemma normalise_returns (p : string) (d : date) (dp : option string) (w : world)
    (c : payload) (df : DataFrame) :
  p ≠ "" → fs w !! p = Some c →
  (normalise_crw (Some p) (Some d) dp w).1 = Ok df →
  ∃ t sst_col la lo v df',
    c = NetCDF t ∧ _find_col t sst_candidates = Some sst_col ∧
    Frame.col "lat" t = Ok la ∧ Frame.col "lon" t = Ok lo ∧ Frame.col sst_col t = Ok v ∧
    (attach_dhw dp
       (mkDF (index t)
          [ ("lat", la); ("lon", lo); ("sst", v);
            ("date", replicate (length (index t)) (CDate d)) ])
       (emit (Read p) (emit (Stat p) w))).1 = Ok df' ∧
    df = (if decide ("dhw" ∈ Frame.columns df') then df'
          else Frame.assign_scalar "dhw" (CFloat 0) df').
Proof.
  intros Hne Hf Hok. destruct c as [t|].
  2:{ by rewrite (normalise_unreadable p (Some d) dp w Hne Hf) in Hok. }
  destruct (_find_col t sst_candidates) as [c|] eqn:Hc.
  2:{ by rewrite (normalise_opened p (Some d) dp w t Hne Hf), Hc in Hok. }
  destruct (find_col_elem _ _ _ Hc) as [_ Hcol].
  destruct (assoc_is_Some c (data t) Hcol) as [v Hv].
  destruct (Frame.assoc "lat" (data t)) as [la|] eqn:Ela.
  2:{ rewrite (normalise_opened p (Some d) dp w t Hne Hf), Hc in Hok.
      unfold bind at 1 in Hok. unfold lift, Frame.select in Hok. simpl in Hok.
      by rewrite Ela in Hok. }
  destruct (Frame.assoc "lon" (data t)) as [lo|] eqn:Elo.
  2:{ rewrite (normalise_opened p (Some d) dp w t Hne Hf), Hc in Hok.
      unfold bind at 1 in Hok. unfold lift, Frame.select in Hok. simpl in Hok.
      by rewrite Ela, Elo in Hok. }
  assert (Frame.col "lat" t = Ok la) as Hla by (unfold Frame.col; by rewrite Ela).
  assert (Frame.col "lon" t = Ok lo) as Hlo by (unfold Frame.col; by rewrite Elo).
  assert (Frame.col c t = Ok v) as Hvc by (unfold Frame.col; by rewrite Hv).
  rewrite (normalise_resolved p d dp w t c la lo v Hne Hf Hc Hla Hlo Hvc) in Hok.
  unfold bind in Hok.
  destruct (attach_dhw dp _ _) as [[df'|e] w'] eqn:Ea; [|done].
  exists t, c, la, lo, v, df'. split_and!; try done.
  - by rewrite Ea.
  - destruct (decide ("dhw" ∈ Frame.columns df')); unfold ret in Hok; simpl in Hok;
      by injection Hok as <-.
Qed.

(** X6. Every row of a table built from a located SST file carries the date
    of that file, a window date that may lie up to two days before today, and
    not the day of the run; this holds with or without a DHW merge. *)
Theorem crw_rows_carry_located_date (w w1 w2 : world) (p : string) (d : date)
    (dp : option string) (dd : option date) (df : DataFrame) :
  locate_sst w = (Ok (Some p, Some d), w1) →
  locate_dhw w1 = (Ok (dp, dd), w2) →
  (fetch_noaa_crw w).1 = Ok df →
  d ∈ window w ∧
  ∃ dates,
    Frame.col "date" df = Ok dates ∧
    length dates = length (index df) ∧
    Forall (λ c, c = CDate d) dates.
Proof.
  intros H1 H2 Hok.
  destruct (locate_sst_shape w) as (r & w' & E & _ & _ & _ & Hr).
  rewrite H1 in E. injection E as <- <-.
  destruct Hr as [[=]|(d' & Hd & [= -> <-] & [c Hf])].
  split; [done|].
  pose proof (located_dhw_keeps _ _ _ _ _ H2 Hf) as Hf2.
  rewrite (fetch_crw_steps _ _ _ _ _ _ _ H1 H2) in Hok.
  destruct (normalise_returns _ _ _ _ _ _ (path_of_nonempty _ _) Hf2 Hok)
    as (t & sc & la & lo & v & df' & -> & _ & _ & _ & _ & Ha & ->).
  assert (∃ dates, Frame.col "date" df' = Ok dates ∧
                   length dates = length (index df') ∧
                   Forall (λ c, c = CDate d) dates) as (dates & Hcol & Hlen & Hall).
  { destruct (attach_dhw_result _ _ _ _ Ha) as [->|[r ->]].
    - eexists. split_and!; [reflexivity|by rewrite length_replicate|].
      by apply Forall_replicate.
    - eexists. split_and!.
      + by apply merge_left_column.
      + rewrite length_fmap. by rewrite (proj1 (merge_left_len _ _ _)).
      + apply Forall_fmap, Forall_forall. intros q Hq. simpl.
        destruct (join_plan_rows ["lat"; "lon"]
                    (mkDF (index t)
                       [ ("lat", la); ("lon", lo); ("sst", v);
                         ("date", replicate (length (index t)) (CDate d)) ]) r)
          as [Hlt _].
        rewrite Forall_forall in Hlt. specialize (Hlt q Hq). simpl in Hlt.
        by rewrite lookup_replicate_2. }
  exists dates. destruct (decide ("dhw" ∈ Frame.columns df')); [done|].
  split_and!; [by rewrite col_assign_other|done|done].
Qed.

Lemma crw_rows_carry_located_date_witness :
  minus_days Scenario.a_day 1 ∈ window Cases.world_yesterday_ph ∧
  ∃ dates,
    Frame.col "date"
      (mkDF [0; 1]
         [ ("lat", [CFloat 6.5; CFloat 6.6]);
           ("lon", [CFloat 92.5; CFloat 92.6]);
           ("sst", [CFloat 28.2; CFloat nan]);
           ("date", [CDate 739923; CDate 739923]);
           ("dhw", [CFloat 0; CFloat 0]) ]) = Ok dates ∧
    length dates = 2%nat ∧
    Forall (λ c, c = CDate (minus_days Scenario.a_day 1)) dates.
Proof.
  apply (crw_rows_carry_located_date Cases.world_yesterday_ph
           (locate_sst Cases.world_yesterday_ph).2
           (locate_dhw (locate_sst Cases.world_yesterday_ph).2).2
           "NOAA_SST_20261103.nc" (minus_days Scenario.a_day 1) None None).
  - vm_compute. reflexivity.
  - vm_compute. reflexivity.
  - vm_compute. reflexivity.
Defined.

(** On the same day the pH table is dated today while the SST table is dated
    yesterday. *)
Example ph_and_sst_dates_differ :
  (∃ df, (fetch_noaa_ph (fetch_noaa_crw Cases.world_yesterday_ph).2).1 = Ok df ∧
         Frame.col "date" df = Ok [CDate Scenario.a_day; CDate Scenario.a_day]) ∧
  (∃ df, (fetch_noaa_crw Cases.world_yesterday_ph).1 = Ok df ∧
         Frame.col "date" df
         = Ok [CDate (minus_days Scenario.a_day 1); CDate (minus_days Scenario.a_day 1)]).
Proof.
  split.
  - eexists. split.
    + vm_compute. reflexivity.
    + vm_compute. reflexivity.
  - eexists. split.
    + vm_compute. reflexivity.
    + vm_compute. reflexivity.
Qed.

(** ** The DHW merge *)











(** X8. The DHW signal is optional only as far as a missing file or an
    unresolved variable goes.  With a usable SST file, a located DHW file that
    cannot be opened makes [fetch_noaa_crw] raise, and so does a DHW file
    whose variable resolves but which lacks a lat or lon column (a KeyError
    naming the absent column); no table is returned. *)
Theorem dhw_file_errors_are_fatal (w w1 w2 : world) (p p' : string) (sd dd : option date)
    (t : DataFrame) (c : string) (la lo v : list cell) :
  locate_sst w = (Ok (Some p, sd), w1) →
  locate_dhw w1 = (Ok (Some p', dd), w2) →
  fs w1 !! p = Some (NetCDF t) →
  _find_col t ["sst"; "analysed_sst"; "sea_surface_temperature"] = Some c →
  Frame.col "lat" t = Ok la → Frame.col "lon" t = Ok lo → Frame.col c t = Ok v →
  (fs w2 !! p' = Some NotADataset → (fetch_noaa_crw w).1 = Raise (OSError p')) ∧
  (∀ t' c',
     fs w2 !! p' = Some (NetCDF t') →
     _find_col t' ["dhw"; "degree_heating_week"] = Some c' →
     "lat" ∉ Frame.columns t' ∨ "lon" ∉ Frame.columns t' →
     ∃ k, (fetch_noaa_crw w).1 = Raise (KeyError k) ∧
          k ∈ ["lat"; "lon"] ∧ (k ∉ Frame.columns t')).
Proof.
  intros H1 H2 Hf Hc Hla Hlo Hv.
  destruct (located_sst_path _ _ _ _ H1) as [Hne [d ->]].
  pose proof (located_dhw_keeps _ _ _ _ _ H2 Hf) as Hf2.
  assert (p' ≠ "") as Hne'.
  { destruct (locate_dhw_shape w1) as (r & w0 & E & _ & _ & _ & Hr).
    rewrite H2 in E. injection E as <- <-.
    destruct Hr as [[=]|(d' & _ & [= -> _] & _)]. apply path_of_nonempty. }
  rewrite (fetch_crw_steps _ _ _ _ _ _ _ H1 H2).
  rewrite (normalise_resolved p d (Some p') w2 t c la lo v Hne Hf2 Hc Hla Hlo Hv).
  unfold bind. split.
  - intros Hf'.
    by rewrite (attach_dhw_opened p' _ (emit (Read p) (emit (Stat p) w2)) NotADataset Hne' Hf').
  - intros t' c' Hf' Hc' Hm.
    rewrite (attach_dhw_opened p' _ (emit (Read p) (emit (Stat p) w2)) (NetCDF t') Hne' Hf').
    unfold dhw_candidates. rewrite Hc'. unfold Frame.select. simpl.
    destruct (decide ("lat" ∈ Frame.columns t')) as [Hlat|Hlat].
    2:{ exists "lat". rewrite (assoc_None _ _ Hlat). split_and!; [done|by left|done]. }
    destruct (assoc_is_Some _ _ Hlat) as [x ->].
    destruct Hm as [?|Hlon]; [done|].
    exists "lon". rewrite (assoc_None _ _ Hlon). split_and!; [done|right; by left|done].
Qed.

Lemma dhw_file_errors_are_fatal_witness :
  (fetch_noaa_crw Cases.world_dhw_corrupt).1 = Raise (OSError "NOAA_DHW_20261104.nc") ∧
  ∃ k, (fetch_noaa_crw Cases.world_dhw_no_lat).1 = Raise (KeyError k) ∧
       k ∈ ["lat"; "lon"] ∧ (k ∉ Frame.columns Cases.dhw_table_no_lat).
Proof.
  split.
  - apply (dhw_file_errors_are_fatal Cases.world_dhw_corrupt
             (locate_sst Cases.world_dhw_corrupt).2
             (locate_dhw (locate_sst Cases.world_dhw_corrupt).2).2
             "NOAA_SST_20261104.nc" "NOAA_DHW_20261104.nc"
             (Some Scenario.a_day) (Some Scenario.a_day)
             Scenario.sst_table "analysed_sst"
             [CFloat 6.5; CFloat 6.6] [CFloat 92.5; CFloat 92.6] [CFloat 28.2; CFloat nan]).
    + vm_compute. reflexivity.
    + vm_compute. reflexivity.
    + vm_compute. reflexivity.
    + vm_compute. reflexivity.
    + vm_compute. reflexivity.
    + vm_compute. reflexivity.
    + vm_compute. reflexivity.
    + vm_compute. reflexivity.
  - apply (dhw_file_errors_are_fatal Cases.world_dhw_no_lat
             (locate_sst Cases.world_dhw_no_lat).2
             (locate_dhw (locate_sst Cases.world_dhw_no_lat).2).2
             "NOAA_SST_20261104.nc" "NOAA_DHW_20261104.nc"
             (Some Scenario.a_day) (Some Scenario.a_day)
             Scenario.sst_table "analysed_sst"
             [CFloat 6.5; CFloat 6.6] [CFloat 92.5; CFloat 92.6] [CFloat 28.2; CFloat nan]
           ) with (c' := "dhw").
    + vm_compute. reflexivity.
    + vm_compute. reflexivity.
    + vm_compute. reflexivity.
    + vm_compute. reflexivity.
    + vm_compute. reflexivity.
    + vm_compute. reflexivity.
    + vm_compute. reflexivity.
    + vm_compute. reflexivity.
    + vm_compute. reflexivity.
    + left. unfold Frame.columns. simpl. rewrite !elem_of_cons, elem_of_nil.
      intros [?|[?|[?|[]]]]; discriminate.
Defined.

(** ** Files that are no datasets *)

Lemma locate_sst_hit (w : world) :
  is_Some (fs w !! path_of "NOAA_SST" (today w)) →
  locate_sst w
  = (Ok (Some (path_of "NOAA_SST" (today w)), Some (today w)),
     emit (Stat (path_of "NOAA_SST" (today w))) w).
Proof.
  intros Hc. rewrite locate_sst_probe.
  change (window w)
    with [minus_days (today w) 0; minus_days (today w) 1; minus_days (today w) 2].
  rewrite probe_cons. unfold acquired, after_probes, minus_days. simpl.
  rewrite Z.sub_0_r. by rewrite download_cached.
Qed.

Lemma crw_unreadable (w w1 : world) (p : string) (sd : option date) :
  locate_sst w = (Ok (Some p, sd), w1) →
  fs w1 !! p = Some NotADataset →
  (fetch_noaa_crw w).1 = Raise (OSError p) ∧
  fs (fetch_noaa_crw w).2 !! p = Some NotADataset.
Proof.
  intros H1 Hf. destruct (located_sst_path _ _ _ _ H1) as [Hne _].
  destruct (locate_dhw_shape w1) as ([dp dd] & w2 & E2 & _).
  pose proof (located_dhw_keeps _ _ _ _ _ E2 Hf) as Hf2.
  rewrite (fetch_crw_steps _ _ _ _ _ _ _ H1 E2). split.
  - by apply normalise_unreadable.
  - destruct (looks_only_normalise (Some p) sd dp w2) as (_ & _ & _ & -> & _). done.
Qed.

(** X9. The cache takes presence for validity.  If today's SST file is not
    cached and the server answers 200 with a body that is no dataset,
    [fetch_noaa_crw] stores that body under today's cache path and raises when
    opening it; and in any world of the same day that holds such a file the
    call raises again, whatever the server would now answer. *)
Theorem junk_sst_download_sticks (w : world) :
  fs w !! path_of "NOAA_SST" (today w) = None →
  net w (trace w ++ [Stat (path_of "NOAA_SST" (today w))])
    (mkReq (url_of (read_in SST_BASE w) "coraltemp_v3.1_{date}.nc" (today w)) 60)
  = Response 200 NotADataset →
  (fetch_noaa_crw w).1 = Raise (OSError (path_of "NOAA_SST" (today w))) ∧
  fs (fetch_noaa_crw w).2 !! path_of "NOAA_SST" (today w) = Some NotADataset ∧
  (∀ w',
     today w' = today w →
     fs w' !! path_of "NOAA_SST" (today w) = Some NotADataset →
     (fetch_noaa_crw w').1 = Raise (OSError (path_of "NOAA_SST" (today w))) ∧
     fs (fetch_noaa_crw w').2 !! path_of "NOAA_SST" (today w) = Some NotADataset).
Proof.
  intros Hf Hnet. split.
  2: split.
  3:{ intros w' Ht Hf'. rewrite <- Ht in *.
      apply (crw_unreadable w' (emit (Stat (path_of "NOAA_SST" (today w'))) w') _
               (Some (today w'))); [|done].
      apply locate_sst_hit. by rewrite Hf'. }
  all: assert (locate_sst w
          = (Ok (Some (path_of "NOAA_SST" (today w)), Some (today w)),
             store (path_of "NOAA_SST" (today w)) NotADataset
               (emit (Get (mkReq (url_of (read_in SST_BASE w) "coraltemp_v3.1_{date}.nc"
                                    (today w)) 60))
                  (emit (Stat (path_of "NOAA_SST" (today w))) w)))) as H1
    by (rewrite locate_sst_probe;
        change (window w)
          with [minus_days (today w) 0; minus_days (today w) 1; minus_days (today w) 2];
        rewrite probe_cons; unfold acquired, after_probes, minus_days; simpl;
        rewrite Z.sub_0_r; rewrite download_uncached by done; simpl;
        by rewrite Hnet).
  - apply (crw_unreadable _ _ _ _ H1). simpl. apply lookup_insert_eq.
  - apply (crw_unreadable _ _ _ _ H1). simpl. apply lookup_insert_eq.
Qed.

Lemma junk_sst_download_sticks_witness :
  (fetch_noaa_crw Cases.world_junk).1 = Raise (OSError "NOAA_SST_20261104.nc") ∧
  fs (fetch_noaa_crw Cases.world_junk).2 !! "NOAA_SST_20261104.nc" = Some NotADataset ∧
  (fetch_noaa_crw (fetch_noaa_crw Cases.world_junk).2).1
  = Raise (OSError "NOAA_SST_20261104.nc").
Proof.
  destruct (junk_sst_download_sticks Cases.world_junk) as (H1 & H2 & H3).
  - vm_compute. reflexivity.
  - vm_compute. reflexivity.
  - split_and!; [exact H1|exact H2|].
    apply (H3 (fetch_noaa_crw Cases.world_junk).2).
    + vm_compute. reflexivity.
    + exact H2.
Defined.

(** ** Footprint of the pH normaliser *)

Lemma looks_only_read_ph : looks_only read_ph.
Proof.
  unfold read_ph. apply looks_only_bind; [auto with looks|]. intros [|]; simpl.
  - apply looks_only_bind; [auto with looks|]. intros t.
    apply looks_only_bind; [auto with looks|]. intros sel.
    apply looks_only_bind; auto with looks.
  - apply looks_only_bind; auto with looks.
Qed.

(** X10. Whatever it returns or raises, [fetch_noaa_ph] issues at most one
    request, to the configured pH URL with timeout 30, and none at all when
    the URL is unset or the pH file is already on disk (then the disk is left
    untouched as well); it creates no file other than the pH file, changes no
    existing file, prints nothing and leaves the environment and the clock
    alone. *)
Theorem fetch_ph_footprint (w : world) :
  fs w ⊆ fs (fetch_noaa_ph w).2 ∧
  at_most_one_new (λ p, p = ph_path) w (fetch_noaa_ph w).2 ∧
  (∃ l, gets_of (trace (fetch_noaa_ph w).2) = gets_of (trace w) ++ l ∧
        l `sublist_of` [mkReq (ph_url_of w) 30]) ∧
  (ph_url_of w = "" ∨ is_Some (fs w !! ph_path) →
   gets_of (trace (fetch_noaa_ph w).2) = gets_of (trace w) ∧
   fs (fetch_noaa_ph w).2 = fs w) ∧
  stdout (fetch_noaa_ph w).2 = stdout w ∧
  environ (fetch_noaa_ph w).2 = environ w ∧
  today (fetch_noaa_ph w).2 = today w.
Proof.
  rewrite fetch_ph_steps. unfold at_most_one_new.
  destruct (looks_only_read_ph (download_ph w).2) as (He & Ht & _ & Hf & Hs & Hg).
  rewrite He, Ht, Hf, Hs, Hg. rewrite download_ph_cases. simpl.
  destruct (decide (ph_url_of w = "")) as [Hu|Hu].
  { split_and!; [done|by left| |done|done|done|done].
    exists []. split; [by rewrite app_nil_r|apply sublist_nil_l]. }
  destruct (fs w !! ph_path) as [c|] eqn:Hc.
  { assert (gets_of (trace (emit (Stat ph_path) w)) = gets_of (trace w)) as Hg0
      by (simpl; rewrite gets_of_app; simpl; by rewrite app_nil_r).
    split_and!; [done|by left| |done|done|done|done].
    exists []. split; [by rewrite app_nil_r|apply sublist_nil_l]. }
  assert (gets_of (trace w ++ [Stat ph_path] ++ [Get (mkReq (ph_url_of w) 30)])
          = gets_of (trace w) ++ [mkReq (ph_url_of w) 30]) as Hgets
    by (rewrite !gets_of_app; simpl; done).
  assert (∀ Q : Prop, ph_url_of w = "" ∨ is_Some (@None payload) → Q) as Hcached
    by (intros Q [?|[? ?]]; done).
  destruct (net w _ _) as [status content|e]; [destruct (is_http_error status)|].
  - split_and!; [done|by left| |apply Hcached|done|done|done].
    exists [mkReq (ph_url_of w) 30]. simpl. by rewrite <- app_assoc, Hgets.
  - split_and!; [by apply insert_subseteq| | |apply Hcached|done|done|done].
    + right. exists ph_path, content. by split_and!.
    + exists [mkReq (ph_url_of w) 30]. simpl.
      rewrite gets_of_app. simpl. rewrite app_nil_r. by rewrite <- app_assoc, Hgets.
  - split_and!; [done|by left| |apply Hcached|done|done|done].
    exists [mkReq (ph_url_of w) 30]. simpl. by rewrite <- app_assoc, Hgets.
Qed.

(** X11. The pH download keeps the body of any response whose status is not
    a 4xx or 5xx error (200 is not required).  The body is then read like a
    cached file; if it is no dataset the call raises, and so does every later
    call in a world that holds this file, with or without a pH URL. *)
Theorem ph_download_keeps_any_non_error_body (w : world) (status : Z) (content : payload) :
  fs w !! ph_path = None →
  ph_url_of w ≠ "" →
  net w (trace w ++ [Stat ph_path]) (mkReq (ph_url_of w) 30) = Response status content →
  is_http_error status = false →
  fs (fetch_noaa_ph w).2 !! ph_path = Some content ∧
  (content = NotADataset → (fetch_noaa_ph w).1 = Raise (OSError ph_path)) ∧
  (∀ w', fs w' !! ph_path = Some NotADataset →
         (fetch_noaa_ph w').1 = Raise (OSError ph_path) ∧
         fs (fetch_noaa_ph w').2 = fs w').
Proof.
  intros Hf Hu Hnet Hs. split_and!.
  - rewrite fetch_ph_steps.
    destruct (looks_only_read_ph (download_ph w).2) as (_ & _ & _ & -> & _).
    rewrite download_ph_cases. simpl. rewrite decide_False by done.
    rewrite Hf, Hnet, Hs. simpl. apply lookup_insert_eq.
  - intros ->. rewrite fetch_ph_steps, download_ph_cases. simpl.
    rewrite decide_False by done. rewrite Hf, Hnet, Hs.
    by rewrite (read_ph_present _ NotADataset) by (simpl; apply lookup_insert_eq).
  - intros w' Hf'. rewrite fetch_ph_steps.
    destruct (looks_only_read_ph (download_ph w').2) as (_ & _ & _ & -> & _).
    rewrite download_ph_cases. simpl. rewrite Hf'.
    destruct (decide (ph_url_of w' = ""));
      by rewrite (read_ph_present _ NotADataset) by done.
Qed.

Lemma ph_download_keeps_any_non_error_body_witness :
  fs (fetch_noaa_ph Cases.world_ph_203).2 !! ph_path = Some (NetCDF Scenario.ph_table) ∧
  (fetch_noaa_ph Cases.world_ph_203).1 = (fetch_noaa_ph Scenario.world_ph_cached).1.
Proof.
  split.
  - apply (ph_download_keeps_any_non_error_body Cases.world_ph_203 203
             (NetCDF Scenario.ph_table)).
    + vm_compute. reflexivity.
    + vm_compute. discriminate.
    + vm_compute. reflexivity.
    + vm_compute. reflexivity.
  - vm_compute. reflexivity.
Defined.

(** ** The orchestrator: records and persistence *)

Import Storage.

Lemma pick_persisted (d r : list (string * list cell)) :
  Frame.pick persisted_columns d = Ok r →
  ∃ x1 x2 x3 x4 x5 x6 x7 x8 x9,
    r = [ ("date", x1); ("lat", x2); ("lon", x3); ("sst", x4); ("dhw", x5);
          ("ph", x6); ("health_score", x7); ("anomaly", x8); ("forecast_ph", x9) ] ∧
    Frame.assoc "date" d = Some x1 ∧ Frame.assoc "lat" d = Some x2 ∧
    Frame.assoc "lon" d = Some x3 ∧ Frame.assoc "sst" d = Some x4 ∧
    Frame.assoc "dhw" d = Some x5 ∧ Frame.assoc "ph" d = Some x6 ∧
    Frame.assoc "health_score" d = Some x7 ∧ Frame.assoc "anomaly" d = Some x8 ∧
    Frame.assoc "forecast_ph" d = Some x9.
Proof.
  unfold persisted_columns. simpl.
  destruct (Frame.assoc "date" d) as [x1|]; [|done].
  destruct (Frame.assoc "lat" d) as [x2|]; [|done].
  destruct (Frame.assoc "lon" d) as [x3|]; [|done].
  destruct (Frame.assoc "sst" d) as [x4|]; [|done].
  destruct (Frame.assoc "dhw" d) as [x5|]; [|done].
  destruct (Frame.assoc "ph" d) as [x6|]; [|done].
  destruct (Frame.assoc "health_score" d) as [x7|]; [|done].
  destruct (Frame.assoc "anomaly" d) as [x8|]; [|done].
  destruct (Frame.assoc "forecast_ph" d) as [x9|]; [|done].
  intros [= <-]. by exists x1, x2, x3, x4, x5, x6, x7, x8, x9.
Qed.

(** X12. When the records for the insert can be built, there is one record
    per row of the table, in row order; each record has exactly the nine
    fields date, latitude, longitude, sst, dhw, ph, health_score, anomaly,
    forecast_ph, in this order (any other column is dropped); and the field
    stored for a persisted column holds that column's cell of the same row. *)
Theorem records_shape (merged : DataFrame) (records : list (list (string * cell))) :
  to_records merged = Ok records →
  length records = length (index merged) ∧
  Forall (λ r, r.*1 = [ "date"; "latitude"; "longitude"; "sst"; "dhw"; "ph";
                        "health_score"; "anomaly"; "forecast_ph" ]) records ∧
  (∀ (i : nat) r c v,
     records !! i = Some r → c ∈ persisted_columns → Frame.col c merged = Ok v →
     Frame.assoc (stored_name c) r = Some (default CNone (v !! i))).
Proof.
  unfold to_records, Frame.select.
  destruct (Frame.pick persisted_columns (data merged)) as [d|e] eqn:Hpick; [|done].
  destruct (pick_persisted _ _ Hpick)
    as (x1 & x2 & x3 & x4 & x5 & x6 & x7 & x8 & x9 & -> & H1 & H2 & H3 & H4 & H5 & H6
        & H7 & H8 & H9).
  intros [= <-]. unfold Frame.records. simpl. split_and!.
  - by rewrite length_map, length_seq.
  - apply Forall_forall. intros r Hr. apply list_elem_of_fmap in Hr as (i & -> & _). done.
  - intros i r c v Hi Hc Hv.
    apply list_lookup_fmap_Some in Hi as (i' & -> & Hi').
    apply lookup_seq in Hi' as [-> _]. simpl.
    unfold Frame.col in Hv. unfold persisted_columns in Hc.
    rewrite !elem_of_cons, elem_of_nil in Hc.
    destruct Hc as [->|[->|[->|[->|[->|[->|[->|[->|[->|[]]]]]]]]]];
      match type of Hv with
      | context [Frame.assoc ?n _] =>
          match goal with
          | H : Frame.assoc n _ = Some _ |- _ => rewrite H in Hv
          end
      end; injection Hv as ->; reflexivity.
Qed.

Lemma records_shape_witness :
  length (Frame.records
            (Frame.rename "lon" "longitude"
               (Frame.rename "lat" "latitude"
                  (mkDF (index Cases.scored_table)
                     [ ("date", [CDate Scenario.a_day; CDate Scenario.a_day]);
                       ("lat", [CFloat 6.5; CFloat 6.6]);
                       ("lon", [CFloat 92.5; CFloat 92.6]);
                       ("sst", [CFloat 28.2; CFloat 28.4]);
                       ("dhw", [CFloat 0; CFloat 0]);
                       ("ph", [CFloat 8.1; CFloat nan]);
                       ("health_score", [CFloat 0.9; CFloat 0.8]);
                       ("anomaly", [CBool false; CBool true]);
                       ("forecast_ph", [CNone; CNone]) ]))))
  = length (index Cases.scored_table).
Proof.
  refine (proj1 (records_shape Cases.scored_table _ _)).
  vm_compute. reflexivity.
Defined.

Lemma pick_missing (cs : list string) (d : list (string * list cell)) (c : string) :
  c ∈ cs → c ∉ d.*1 →
  ∃ k, k ∈ cs ∧ (k ∉ d.*1) ∧ Frame.pick cs d = Raise (KeyError k).
Proof.
  induction cs as [|c0 cs IH]; [by intros ?%elem_of_nil|].
  intros Hc Hn. simpl.
  destruct (decide (c0 ∈ d.*1)) as [Hin|Hout].
  - destruct (assoc_is_Some c0 d Hin) as [v ->].
    apply elem_of_cons in Hc as [->|Hc]; [done|].
    destruct (IH Hc Hn) as (k & Hk & Hkn & ->).
    exists k. split_and!; [by right|done|done].
  - exists c0. rewrite (assoc_None _ _ Hout). split_and!; [by left|done|done].
Qed.



(** ** The orchestrator: what stops a run *)

Lemma fetch_crw_stdout (w : world) : stdout (fetch_noaa_crw w).2 = stdout w.
Proof.
  destruct (locate_sst_shape w) as ([sp sd] & w1 & E1 & _).
  destruct (locate_dhw_shape w1) as ([dp dd] & w2 & E2 & _).
  rewrite (fetch_crw_steps _ _ _ _ _ _ _ E1 E2).
  destruct (looks_only_normalise sp sd dp w2) as (_ & _ & _ & _ & -> & _).
  pose proof (probe_files (read_in SST_BASE w) "coraltemp_v3.1_{date}.nc" "NOAA_SST"
                (window w) w) as (_ & _ & _ & Hs1).
  rewrite <- locate_sst_probe, E1 in Hs1.
  pose proof (probe_files (read_in DHW_BASE w1) "ct5km_dhw_v3.1_{date}.nc" "NOAA_DHW"
                (window w1) w1) as (_ & _ & _ & Hs2).
  rewrite <- locate_dhw_probe, E2 in Hs2. simpl in *. congruence.
Qed.

Lemma fetch_ph_stdout (w : world) : stdout (fetch_noaa_ph w).2 = stdout w.
Proof.
  rewrite fetch_ph_steps.
  destruct (looks_only_read_ph (download_ph w).2) as (_ & _ & _ & _ & -> & _).
  rewrite download_ph_cases. simpl.
  destruct (decide (ph_url_of w = "")); [done|].
  destruct (fs w !! ph_path); [done|].
  by destruct (net w _ _) as [status content|e]; [destruct (is_http_error status)|].
Qed.

Lemma bind_raise {A B} (m : M A) (k : A → M B) (w w' : world) (e : exn) :
  m w = (Raise e, w') → bind m k w = (Raise e, w').
Proof. intros H. unfold bind. by rewrite H. Qed.

Lemma bind_ok {A B} (m : M A) (k : A → M B) (w w' : world) (a : A) :
  m w = (Ok a, w') → bind m k w = k a w'.
Proof. intros H. unfold bind. by rewrite H. Qed.

Lemma run_result {A} (m : M A) (w : world) (r : result A) :
  (m w).1 = r → m w = (r, (m w).2).
Proof. intros <-. by destruct (m w). Qed.

(** X14. An exception raised by [fetch_noaa_crw] or by [fetch_noaa_ph] (a
    schema drift, a file that cannot be opened) is not handled by
    [run_daily_pipeline]: the run ends with that exception after printing the
    first step line only, and the outcome is the same whatever the other
    stages and the database functions are, so none of them is entered. *)
Theorem fetch_errors_abort_run (w : world) (e : exn) :
  let w0 := (print "Step 1: Fetching NOAA CRW data..." w).2 in
  ((fetch_noaa_crw w0).1 = Raise e ∨
   ((∃ noaa, (fetch_noaa_crw w0).1 = Ok noaa) ∧
    (fetch_noaa_ph (fetch_noaa_crw w0).2).1 = Raise e)) →
  ∃ w',
    stdout w' = stdout w ++ ["Step 1: Fetching NOAA CRW data..."] ∧
    ∀ (GeoDataFrame LstmModel : Type)
      (fetch_allen_coral_atlas : DataFrame → M GeoDataFrame)
      (clean_noaa : DataFrame → M DataFrame)
      (clean_allen : GeoDataFrame → M GeoDataFrame)
      (integrate_ph : DataFrame → DataFrame → M DataFrame)
      (spatial_merge : DataFrame → GeoDataFrame → M DataFrame)
      (health_score : list (string * cell) → M cell)
      (detect_anomaly : list cell → M (list cell))
      (train_lstm : list cell → M LstmModel)
      (forecast_lstm : LstmModel → list cell → Z → M (list float))
      (db_init_db : M unit)
      (db_insert : list (list (string * cell)) → M unit)
      (choice : Z → nat → nat → list nat),
      run_daily_pipeline GeoDataFrame LstmModel fetch_allen_coral_atlas clean_noaa
        clean_allen integrate_ph spatial_merge health_score detect_anomaly
        train_lstm forecast_lstm db_init_db db_insert choice w
      = (Raise e, w').
Proof.
  intros w0 [Hcrw|[[noaa Hcrw] Hph]].
  - exists (fetch_noaa_crw w0).2. split; [by rewrite fetch_crw_stdout|].
    intros. unfold run_daily_pipeline, run_pipeline.
    apply bind_raise. unfold build_merged.
    rewrite (bind_ok _ _ w w0 tt) by done.
    apply bind_raise. by apply run_result.
  - exists (fetch_noaa_ph (fetch_noaa_crw w0).2).2.
    split; [by rewrite fetch_ph_stdout, fetch_crw_stdout|].
    intros. unfold run_daily_pipeline, run_pipeline.
    apply bind_raise. unfold build_merged.
    rewrite (bind_ok _ _ w w0 tt) by done.
    rewrite (bind_ok _ _ w0 (fetch_noaa_crw w0).2 noaa) by (by apply run_result).
    apply bind_raise. by apply run_result.
Qed.

Lemma fetch_errors_abort_run_witness :
  ∃ w',
    stdout w' = ["Step 1: Fetching NOAA CRW data..."] ∧
    run_daily_pipeline unit unit (λ _, ret tt) ret ret (λ noaa _, ret noaa)
      (λ merged _, ret merged) Cases.const_score Cases.no_anomaly
      Scenario.flat_train Scenario.flat_forecast Cases.noting_init Cases.noting_insert
      Scenario.first_positions Scenario.world_ph_drift
    = (Raise (KeyError "ph"), w').
Proof.
  destruct (fetch_errors_abort_run Scenario.world_ph_drift (KeyError "ph")) as (w' & Hs & Hrun).
  - right. split.
    + eexists. vm_compute. reflexivity.
    + vm_compute. reflexivity.
  - exists w'. split; [exact Hs|apply Hrun].
Defined.

(** X15. The test that decides whether to forecast reads the pH column
    outside the try block.  With fast mode off and no pH column the stage
    raises KeyError "ph" without calling the forecaster; with fast mode on
    the column is never read there, the stage succeeds, and the missing column
    surfaces only when the records are built. *)
Theorem forecast_guard_reads_ph (LstmModel : Type) (train_lstm : list cell → M LstmModel)
    (forecast_lstm : LstmModel → list cell → Z → M (list float))
    (merged : DataFrame) (w : world) :
  "ph" ∉ Frame.columns merged →
  forecast_stage LstmModel train_lstm forecast_lstm false merged w
  = (Raise (KeyError "ph"), w) ∧
  forecast_stage LstmModel train_lstm forecast_lstm true merged w
  = (Ok (Frame.assign_scalar "forecast_ph" CNone merged), w) ∧
  ∃ k, to_records (Frame.assign_scalar "forecast_ph" CNone merged) = Raise (KeyError k).
Proof.
  intros Hn. split_and!.
  - unfold forecast_stage, forecast_guard. cbv zeta. cbn [negb].
    unfold bind at 1. unfold bind at 1. unfold lift.
    rewrite (blank_keeps_ph merged). unfold Frame.col.
    by rewrite (assoc_None _ _ Hn).
  - done.
  - destruct (pick_missing persisted_columns
                (data (Frame.assign_scalar "forecast_ph" CNone merged)) "ph")
      as (k & _ & _ & Hp).
    + unfold persisted_columns. rewrite !elem_of_cons. auto 10.
    + intros Hin. apply assoc_is_Some in Hin as [v Hv].
      unfold Frame.assign_scalar in Hv. simpl in Hv.
      rewrite assoc_put_ne in Hv by done. by rewrite (assoc_None _ _ Hn) in Hv.
    + exists k. unfold to_records, Frame.select. by rewrite Hp.
Qed.

Lemma forecast_guard_reads_ph_witness :
  forecast_stage unit Scenario.flat_train Scenario.flat_forecast false
    Cases.merged_without_ph Scenario.world_offline
  = (Raise (KeyError "ph"), Scenario.world_offline).
Proof.
  apply (forecast_guard_reads_ph unit Scenario.flat_train Scenario.flat_forecast
           Cases.merged_without_ph Scenario.world_offline).
  unfold Frame.columns. simpl. rewrite !elem_of_cons, elem_of_nil.
  intros [?|[?|[?|[?|[?|[]]]]]]; discriminate.
Defined.

(** X16. When the scoring stage returns, the table has the same rows and row
    labels as before, every column other than health_score and anomaly is
    unchanged, and the two new columns have one cell per row. *)
Theorem score_stage_keeps_rows (health_score : list (string * cell) → M cell)
    (detect_anomaly : list cell → M (list cell))
    (merged out : DataFrame) (w w' : world) :
  score_stage health_score detect_anomaly merged w = (Ok out, w') →
  index out = index merged ∧
  (∀ c, c ≠ "health_score" → c ≠ "anomaly" → Frame.col c out = Frame.col c merged) ∧
  ∃ hs an,
    Frame.col "health_score" out = Ok hs ∧ length hs = length (index merged) ∧
    Frame.col "anomaly" out = Ok an ∧ length an = length (index merged).
Proof.
  unfold score_stage. unfold bind at 1. unfold print at 1.
  unfold bind at 1. destruct (apply_rows _ _ _) as [[hs|e] w1]; [|done].
  unfold bind at 1. unfold lift at 1. unfold Frame.assign at 1.
  destruct (decide (length hs = length (index merged))) as [Hhs|]; [|done].
  unfold bind at 1. unfold lift at 1.
  destruct (Frame.col "sst" _) as [sst|e]; [|done].
  unfold bind at 1. destruct (detect_anomaly sst w1) as [[an|e] w2]; [|done].
  unfold lift, Frame.assign. simpl.
  destruct (decide (length an = length (index merged))) as [Han|]; [|done].
  intros [= <- <-]. split_and!.
  - done.
  - intros c H1 H2. unfold Frame.col. simpl. by rewrite !assoc_put_ne.
  - exists hs, an. unfold Frame.col. simpl.
    rewrite assoc_put_eq, assoc_put_ne, assoc_put_eq by done. done.
Qed.

Lemma score_stage_keeps_rows_witness :
  index (mkDF [4; 7]
           [ ("lat", [CFloat 6.5; CFloat 6.6]);
             ("lon", [CFloat 92.5; CFloat 92.6]);
             ("sst", [CFloat 28.2; CFloat 28.4]);
             ("date", [CDate Scenario.a_day; CDate Scenario.a_day]);
             ("dhw", [CFloat 0; CFloat 0]);
             ("health_score", [CFloat 0.5; CFloat 0.5]);
             ("anomaly", [CBool false; CBool false]) ])
  = index Cases.merged_without_ph.
Proof.
  refine (proj1 (score_stage_keeps_rows Cases.const_score Cases.no_anomaly
                   Cases.merged_without_ph _ Scenario.world_offline
                   (print "Step 6: Running ML predictions..." Scenario.world_offline).2 _)).
  vm_compute. reflexivity.
Defined.
